(** * check-production.sh: the production readiness checker

    A shallow embedding of the bash script [check-production.sh] and the
    properties its specification states.  Line numbers are those of the
    script.

    The script runs under [set -e].  Every command that is not the
    condition of an [if], not the left side of [||] and not inside a
    command substitution used as an argument therefore ends the script
    when it returns a non-zero status.  This includes the arithmetic
    commands [((PASSED++))], [((FAILED++))] and [((WARNINGS++))]: bash
    gives [((expr))] the status 1 when [expr] evaluates to 0, and the
    value of a post-increment is the value before the increment.

    External tools (docker, openssl, npm, dig, lsof, ss, du, clear) are
    oracles of the environment [Env]; what the run can change (the
    [dist] build output and the throwaway docker image) is part of the
    shell [State].  Colours and decoration of the output are left out:
    a header is one line, the closing banner with the text below it is
    one line.  [echo] and [cat] are taken to succeed.

    [grep -q] searches the lines of a text file for a match of a basic
    regular expression.  The script's patterns are literal text with [.]
    and [.*]; a dot stands for one character, and which bytes make one
    character is the locale's to say. *)

From Stdlib Require Import ZArith Lia Ascii.
From stdpp Require Import gmap strings list.

Local Open Scope Z_scope.

(** ** Output and state *)

(** The tag of a check result: [check_pass], [check_fail], [check_warn]. *)
Inductive tag := Pass | Fail | Warn.

(** What the script writes to standard output, colours left out. *)
Inductive line :=
  | Result (t : tag) (msg : string)      (* check_pass/check_fail/check_warn *)
  | Header (title : string)              (* print_header *)
  | Echo (text : string)                 (* any other text *)
  | Total (t : tag) (n total : Z)        (* "Passed:   $PASSED/$TOTAL" ... *)
  | Banner (ready : bool).               (* READY / NOT READY FOR PRODUCTION *)

(** The [dist/] build output as the script observes it:
    [[ -d dist ]] and [[ -f dist/index.html ]]. *)
Record Dist := { dist_dir : bool; dist_index_html : bool }.

(** Shell variables [PASSED], [FAILED], [WARNINGS], the text printed so
    far, and the two things a run can change outside itself. *)
Record State := {
  PASSED : Z;
  FAILED : Z;
  WARNINGS : Z;
  stdout : list line;
  dist : Dist;
  test_image : bool          (* portfolio-test:check is present *)
}.

(** The ambient environment: installed tools, files, services. *)
Record Env := {
  clear_status : Z;                          (* clear *)
  docker_installed : bool;                   (* command -v docker *)
  docker_version : string;                   (* docker --version | cut | tr *)
  docker_info : Z;                           (* docker info *)
  regular_files : gset string;               (* [ -f path ] *)
  dirs : gset string;                        (* [ -d path ] *)
  contents : gmap string (list string);      (* the readable files, as the lines grep reads *)
  locale_character : string -> bool;         (* LANG, LC_ALL: is this one character? *)
  openssl_installed : bool;                  (* command -v openssl *)
  openssl_enddate : string;                  (* openssl x509 ... | cut -d= -f2 *)
  nginx_t : Z;                               (* docker run ... nginx -t, line 114 *)
  nginx_t_again : Z;                         (* the same command, line 118 *)
  nginx_t_report : string;                   (* what line 118 prints *)
  npm_run_build : Dist -> Z * Dist;          (* npm run build: status, new dist *)
  du_dist : string;                          (* du -sh dist | cut -f1 *)
  docker_build : Z;                          (* docker build -t portfolio-test:check . *)
  docker_images : Z * string;                (* docker images ... --format: status, output *)
  docker_rmi : Z;                            (* docker rmi portfolio-test:check *)
  dig_installed : bool;                      (* command -v dig *)
  dig_short : string;                        (* dig +short ... A | head -1 *)
  port_in_use : string -> bool               (* lsof -i :$port || ss -tuln | grep -q *)
}.

Definition set_PASSED (v : Z) (s : State) : State :=
  {| PASSED := v; FAILED := FAILED s; WARNINGS := WARNINGS s;
     stdout := stdout s; dist := dist s; test_image := test_image s |}.

Definition set_FAILED (v : Z) (s : State) : State :=
  {| PASSED := PASSED s; FAILED := v; WARNINGS := WARNINGS s;
     stdout := stdout s; dist := dist s; test_image := test_image s |}.

Definition set_WARNINGS (v : Z) (s : State) : State :=
  {| PASSED := PASSED s; FAILED := FAILED s; WARNINGS := v;
     stdout := stdout s; dist := dist s; test_image := test_image s |}.

Definition print (l : line) (s : State) : State :=
  {| PASSED := PASSED s; FAILED := FAILED s; WARNINGS := WARNINGS s;
     stdout := stdout s ++ [l]; dist := dist s; test_image := test_image s |}.

Definition set_dist (d : Dist) (s : State) : State :=
  {| PASSED := PASSED s; FAILED := FAILED s; WARNINGS := WARNINGS s;
     stdout := stdout s; dist := d; test_image := test_image s |}.

Definition set_test_image (b : bool) (s : State) : State :=
  {| PASSED := PASSED s; FAILED := FAILED s; WARNINGS := WARNINGS s;
     stdout := stdout s; dist := dist s; test_image := b |}.

(** ** The shell under [set -e] *)

(** A command either lets the script go on or has ended it. *)
Inductive outcome :=
  | Running (s : State)
  | Exited (code : Z) (s : State).

Definition cmd := State -> outcome.

Definition skip : cmd := Running.

Definition seq (c1 c2 : cmd) : cmd :=
  fun s => match c1 s with
           | Running s' => c2 s'
           | Exited code s' => Exited code s'
           end.

Notation "c1 ;; c2" := (seq c1 c2) (at level 100, c2 at level 200, right associativity).

(** A simple command with the given status where [set -e] applies. *)
Definition errexit (status : Z) : cmd :=
  fun s => if status =? 0 then Running s else Exited status s.

Definition echo (l : line) : cmd := fun s => Running (print l s).

Definition exit (code : Z) : cmd := fun s => Exited code s.

(** [for x in l; do body; done] *)
Fixpoint for_each {A} (l : list A) (body : A -> cmd) : cmd :=
  match l with
  | [] => skip
  | x :: l' => body x ;; for_each l' body
  end.

(** Bash arithmetic is 64-bit signed and wraps around. *)
Definition wrap64 (z : Z) : Z := (z + 2 ^ 63) mod 2 ^ 64 - 2 ^ 63.

Arguments wrap64 : simpl never.

(** [((v++))]: the new value of [v] and the status of the command, which
    is 1 exactly when the expression's value, the old [v], is 0. *)
Definition post_incr (v : Z) : Z * Z :=
  (wrap64 (v + 1), if v =? 0 then 1 else 0).

(** ** The script's functions (lines 18-37) *)

Definition print_header (title : string) : cmd := echo (Header title).

(** [check_pass] (lines 24-27) prints its line and then runs
    [((PASSED++))] as an ordinary command: neither the function body nor
    any of its call sites is the condition of an [if] or part of a
    [&&]/[||] list, so [set -e] applies to the arithmetic command's
    status.  [check_fail] and [check_warn] are alike. *)

Definition check_pass (msg : string) : cmd :=
  echo (Result Pass msg) ;;
  fun s => let '(v, status) := post_incr (PASSED s) in
           errexit status (set_PASSED v s).

Definition check_fail (msg : string) : cmd :=
  echo (Result Fail msg) ;;
  fun s => let '(v, status) := post_incr (FAILED s) in
           errexit status (set_FAILED v s).

Definition check_warn (msg : string) : cmd :=
  echo (Result Warn msg) ;;
  fun s => let '(v, status) := post_incr (WARNINGS s) in
           errexit status (set_WARNINGS v s).

(** ** grep -q with the basic regular expressions the script uses *)

(** The script's patterns are literal text with [.] and [.*] only, and
    each begins with a letter. *)
Inductive atom := Lit (c : ascii) | Any.
Inductive item := One (a : atom) | Star (a : atom).

Definition atom_of (c : ascii) : atom :=
  if Ascii.eqb c "." then Any else Lit c.

Fixpoint bre_of_string (p : string) : list item :=
  match p with
  | EmptyString => []
  | String c EmptyString => [One (atom_of c)]
  | String c (String d rest as p') =>
      if Ascii.eqb d "*" then Star (atom_of c) :: bre_of_string rest
      else One (atom_of c) :: bre_of_string p'
  end.

(** One character of the locale, which is what a dot stands for.  In
    every encoding that extends ASCII (C, ISO-8859, UTF-8) a byte below
    128 is a character; which other sequences of bytes are one character
    is the locale's to say: every single byte in the C locale, the
    well-formed sequences of two to four bytes in a UTF-8 locale. *)
Definition character (env : Env) (ch : string) : bool :=
  match ch with
  | EmptyString => false
  | String c EmptyString => Nat.ltb (nat_of_ascii c) 128 || locale_character env ch
  | String _ (String _ _) => locale_character env ch
  end.

(** The texts left after one character at the start of [s]; [pre] holds
    the bytes already taken for it. *)
Fixpoint after_character (env : Env) (pre s : string) : list string :=
  match s with
  | EmptyString => []
  | String c s' =>
      let ch := pre +:+ String c EmptyString in
      (if character env ch then [s'] else []) ++ after_character env ch s'
  end.

(** The texts left after a match of one atom at the start of [s]. *)
Definition after_atom (env : Env) (a : atom) (s : string) : list string :=
  match a with
  | Lit d =>
      match s with
      | String c s' => if Ascii.eqb c d then [s'] else []
      | EmptyString => []
      end
  | Any => after_character env EmptyString s
  end.

(** The texts left after any number of matches of the atom; every match
    takes at least one byte, so [fuel] need not exceed the length of
    [s]. *)
Fixpoint after_star (env : Env) (a : atom) (fuel : nat) (s : string) : list string :=
  s :: match fuel with
       | O => []
       | S fuel' => flat_map (after_star env a fuel') (after_atom env a s)
       end.

(** Does the pattern match a prefix of the text? *)
Fixpoint match_here (env : Env) (p : list item) (s : string) : bool :=
  match p with
  | [] => true
  | One a :: p' => existsb (match_here env p') (after_atom env a s)
  | Star a :: p' => existsb (match_here env p') (after_star env a (String.length s) s)
  end.

(** Does the pattern match somewhere in the line?  A match of a pattern
    that begins with a letter begins at a letter, which in these
    encodings is never a part of another character. *)
Fixpoint bre_search (env : Env) (p : list item) (s : string) : bool :=
  match_here env p s ||
  match s with
  | String _ s' => bre_search env p s'
  | EmptyString => false
  end.

(** Status of [grep -q pattern file]: 0 when a line matches, 1 when none
    does, 2 when the file cannot be read.  The pattern is one of the
    script's: it does not begin with [-], which would make it an option,
    and holds no newline. *)
Definition grep_q (env : Env) (pattern file : string) : Z :=
  match contents env !! file with
  | Some ls => if existsb (bre_search env (bre_of_string pattern)) ls then 0 else 1
  | None => 2
  end.

(** [[ -f path ]], [[ -d path ]], [[ -n text ]] *)
Definition test_f (env : Env) (path : string) : bool := bool_decide (path ∈ regular_files env).
Definition test_d (env : Env) (path : string) : bool := bool_decide (path ∈ dirs env).
Definition test_n (text : string) : bool :=
  match text with EmptyString => false | String _ _ => true end.

(** ** The script's sections (lines 50-289) *)

(** [if grep -q pattern file; then c1; else c2; fi] *)
Definition if_grep (env : Env) (pattern file : string) (c1 c2 : cmd) : cmd :=
  if grep_q env pattern file =? 0 then c1 else c2.

(** Lines 52-56 and 58-62. *)
Definition docker_installed_check (env : Env) : cmd :=
  if docker_installed env
  then check_pass ("Docker is installed (" +:+ docker_version env +:+ ")")
  else check_fail "Docker is not installed".

Definition docker_daemon_check (env : Env) : cmd :=
  if docker_info env =? 0
  then check_pass "Docker daemon is running"
  else check_fail "Docker daemon is not running".

Definition docker_environment (env : Env) : cmd :=
  print_header "1. Docker Environment" ;;
  docker_installed_check env ;;
  docker_daemon_check env.

(** Lines 66-80: the array [files]. *)
Definition files : list string :=
  ["Dockerfile"; "nginx.conf"; "package.json"; "vite.config.js"; ".dockerignore"]%string.

Definition required_file_check (env : Env) (file : string) : cmd :=
  if test_f env file
  then check_pass (file +:+ " exists")
  else check_fail (file +:+ " is missing").

Definition required_files (env : Env) : cmd :=
  print_header "2. Required Files" ;;
  for_each files (required_file_check env).

(** Lines 84-110. *)
Definition CERT_PATH : string := "/etc/letsencrypt/live/vladplk.mysmarttech.fr".
Definition LOCAL_CERT_PATH : string := "certs".

Definition certbot_hint : string :=
  "   Run: sudo certbot certonly --standalone -d vladplk.mysmarttech.fr".

(** Lines 92-97, "Check expiry". *)
Definition expiry_check (env : Env) : cmd :=
  if openssl_installed env then
    let EXPIRY := openssl_enddate env in
    if test_n EXPIRY then check_pass ("Certificate expires: " +:+ EXPIRY) else skip
  else skip.

Definition certificate_check (env : Env) : cmd :=
  if test_d env CERT_PATH then
    if test_f env (CERT_PATH +:+ "/fullchain.pem") && test_f env (CERT_PATH +:+ "/privkey.pem")
    then check_pass ("SSL certificates found in " +:+ CERT_PATH) ;; expiry_check env
    else check_fail ("SSL certificate files missing in " +:+ CERT_PATH)
  else if test_d env LOCAL_CERT_PATH then
    if test_f env (LOCAL_CERT_PATH +:+ "/fullchain.pem")
       && test_f env (LOCAL_CERT_PATH +:+ "/privkey.pem")
    then check_pass ("SSL certificates found in " +:+ LOCAL_CERT_PATH +:+ "/")
    else check_fail ("SSL certificate files missing in " +:+ LOCAL_CERT_PATH +:+ "/")
  else
    check_fail "No SSL certificates found" ;;
    echo (Echo certbot_hint).

Definition ssl_certificates (env : Env) : cmd :=
  print_header "3. SSL Certificates" ;;
  certificate_check env.

(** Lines 114-119: the second [docker run] is an ordinary command. *)
Definition nginx_config_test (env : Env) : cmd :=
  if nginx_t env =? 0 then check_pass "nginx configuration is valid"
  else
    check_fail "nginx configuration has errors" ;;
    echo (Echo (nginx_t_report env)) ;;
    errexit (nginx_t_again env).

(** Lines 122-124: no [else] branch. *)
Definition proxy_pass_heuristic (env : Env) : cmd :=
  if_grep env "proxy_pass" "nginx.conf"
    (check_warn "nginx.conf contains proxy_pass (should serve static files)")
    skip.

(** Lines 126-130. *)
Definition spa_fallback_heuristic (env : Env) : cmd :=
  if_grep env "try_files.*index.html" "nginx.conf"
    (check_pass "SPA fallback routing configured")
    (check_warn "SPA fallback routing may not be configured").

Definition nginx_configuration (env : Env) : cmd :=
  print_header "4. nginx Configuration" ;;
  nginx_config_test env ;;
  proxy_pass_heuristic env ;;
  spa_fallback_heuristic env.

(** Lines 134-157.  [npm run build] is the condition of an [if]; it
    rewrites the build output. *)
Definition node_modules_check (env : Env) : cmd :=
  if test_d env "node_modules"
  then check_pass "node_modules exists"
  else check_warn "node_modules not found (run: npm install)".

Definition index_html_check : cmd :=
  fun s => if dist_index_html (dist s)
           then check_pass "index.html generated" s
           else check_fail "index.html not found in dist/" s.

Definition dist_checks (env : Env) : cmd :=
  fun s => if dist_dir (dist s)
           then (let DIST_SIZE := du_dist env in
                 check_pass ("Build output size: " +:+ DIST_SIZE) ;;
                 index_html_check) s
           else skip s.

Definition production_build (env : Env) : cmd :=
  fun s => let '(status, d) := npm_run_build env (dist s) in
           (if status =? 0
            then check_pass "Production build successful" ;; dist_checks env
            else check_fail "Production build failed") (set_dist d s).

Definition build_test (env : Env) : cmd :=
  print_header "5. Build Test" ;;
  node_modules_check env ;;
  production_build env.

(** Lines 161-172.  A successful build tags the image; [docker rmi]
    removes it when it succeeds, and [|| true] hides its status. *)
Definition docker_rmi_or_true (env : Env) : cmd :=
  fun s => Running (if docker_rmi env =? 0 then set_test_image false s else s).

Definition docker_build_check (env : Env) : cmd :=
  if docker_build env =? 0 then
    (fun s => Running (set_test_image true s)) ;;
    check_pass "Docker image builds successfully" ;;
    errexit (fst (docker_images env)) ;;          (* IMAGE_SIZE=$(docker images ...) *)
    (let IMAGE_SIZE := snd (docker_images env) in
     check_pass ("Docker image size: " +:+ IMAGE_SIZE)) ;;
    docker_rmi_or_true env
  else check_fail "Docker build failed".

Definition docker_build_test (env : Env) : cmd :=
  print_header "6. Docker Build Test" ;;
  docker_build_check env.

(** Lines 175-205. *)
Definition security_headers : list string :=
  ["Strict-Transport-Security"; "X-Frame-Options"; "X-Content-Type-Options";
   "X-XSS-Protection"]%string.

Definition security_header_check (env : Env) (header : string) : cmd :=
  if_grep env header "nginx.conf"
    (check_pass (header +:+ " configured"))
    (check_warn (header +:+ " not configured")).

Definition security_configuration (env : Env) : cmd :=
  print_header "7. Security Configuration" ;;
  for_each security_headers (security_header_check env) ;;
  if_grep env "ssl_protocols TLSv1.2 TLSv1.3" "nginx.conf"
    (check_pass "Modern SSL protocols configured")
    (check_warn "SSL protocols may not be optimally configured") ;;
  if_grep env "USER nginx" "Dockerfile"
    (check_pass "Container runs as non-root user")
    (check_warn "Container may be running as root").

(** Lines 193-198, the third check of [security_configuration]. *)
Definition ssl_protocols_check (env : Env) : cmd :=
  if_grep env "ssl_protocols TLSv1.2 TLSv1.3" "nginx.conf"
    (check_pass "Modern SSL protocols configured")
    (check_warn "SSL protocols may not be optimally configured").

(** Lines 208-236. *)
Definition performance_configuration (env : Env) : cmd :=
  print_header "8. Performance Configuration" ;;
  if_grep env "gzip on" "nginx.conf"
    (check_pass "Gzip compression enabled")
    (check_warn "Gzip compression not configured") ;;
  if_grep env "http2" "nginx.conf"
    (check_pass "HTTP/2 enabled")
    (check_warn "HTTP/2 not enabled") ;;
  if_grep env "expires" "nginx.conf"
    (check_pass "Static asset caching configured")
    (check_warn "Asset caching not configured") ;;
  if_grep env "minify" "vite.config.js"
    (check_pass "Minification configured in Vite")
    (check_warn "Minification may not be configured").

(** Lines 239-249. *)
Definition dns_configuration (env : Env) : cmd :=
  print_header "9. DNS Configuration" ;;
  if dig_installed env then
    let DNS_RESULT := dig_short env in
    if test_n DNS_RESULT
    then check_pass ("DNS resolves to: " +:+ DNS_RESULT)
    else check_warn "DNS not configured or not resolving"
  else check_warn "dig not installed, skipping DNS check".

(** Lines 252-259. *)
Definition port_check (env : Env) (port : string) : cmd :=
  if port_in_use env port
  then check_warn ("Port " +:+ port +:+ " is already in use")
  else check_pass ("Port " +:+ port +:+ " is available").

Definition port_availability (env : Env) : cmd :=
  print_header "10. Port Availability" ;;
  for_each ["80"; "443"]%string (port_check env).

(** Lines 262-289. *)
Definition summary : cmd :=
  print_header "Summary" ;;
  fun s =>
    let TOTAL := wrap64 (PASSED s + FAILED s + WARNINGS s) in
    (echo (Total Pass (PASSED s) TOTAL) ;;
     echo (Total Fail (FAILED s) TOTAL) ;;
     echo (Total Warn (WARNINGS s) TOTAL) ;;
     if FAILED s =? 0
     then echo (Banner true) ;; exit 0
     else echo (Banner false) ;; exit 1) s.

(** The ten sections and the summary, from any values of the counters. *)
Definition battery (env : Env) : cmd :=
  docker_environment env ;;
  required_files env ;;
  ssl_certificates env ;;
  nginx_configuration env ;;
  build_test env ;;
  docker_build_test env ;;
  security_configuration env ;;
  performance_configuration env ;;
  dns_configuration env ;;
  port_availability env ;;
  summary.

(** Lines 14-16: the counters start at 0; [d] and [img] are the build
    output and the test image as the run finds them. *)
Definition initial (d : Dist) (img : bool) : State :=
  {| PASSED := 0; FAILED := 0; WARNINGS := 0; stdout := [];
     dist := d; test_image := img |}.

(** The whole script: [clear], the title, then the battery. *)
Definition check_production (env : Env) : cmd :=
  errexit (clear_status env) ;;
  echo (Echo "Production Readiness & Security Check") ;;
  battery env.

Definition run (env : Env) (d : Dist) (img : bool) : outcome :=
  check_production env (initial d img).

(** ** Observations *)

Definition final (o : outcome) : State :=
  match o with Running s | Exited _ s => s end.

(** The process exit status; a script that runs off its end returns 0. *)
Definition exit_code (o : outcome) : Z :=
  match o with Running _ => 0 | Exited code _ => code end.

Definition is_running (o : outcome) : bool :=
  match o with Running _ => true | Exited _ _ => false end.

Definition tag_eqb (t u : tag) : bool :=
  match t, u with
  | Pass, Pass | Fail, Fail | Warn, Warn => true
  | _, _ => false
  end.

(** The check results among the printed lines, in order. *)
Fixpoint results (ls : list line) : list (tag * string) :=
  match ls with
  | [] => []
  | Result t msg :: ls' => (t, msg) :: results ls'
  | _ :: ls' => results ls'
  end.

Definition is_result (l : line) : bool :=
  match l with Result _ _ => true | _ => false end.

(** How many results carry the tag [t]. *)
Fixpoint count_tag (t : tag) (ls : list line) : nat :=
  match ls with
  | [] => 0
  | Result u _ :: ls' => (if tag_eqb t u then 1 else 0) + count_tag t ls'
  | _ :: ls' => count_tag t ls'
  end.

(** [PASSED + FAILED + WARNINGS] as the script computes its [TOTAL]. *)
Definition tally_total (s : State) : Z := wrap64 (PASSED s + FAILED s + WARNINGS s).

(** The RunTally: (passed, failed, warned). *)
Definition tally (s : State) : Z * Z * Z := (PASSED s, FAILED s, WARNINGS s).

(** ** Notions the properties are stated with *)

(** What [check_pass], [check_fail] and [check_warn] do in one step:
    the line is printed and the counter incremented in every case, and
    the script ends with status 1 when the counter was 0. *)
Definition after_pass (msg : string) (s : State) : State :=
  set_PASSED (wrap64 (PASSED s + 1)) (print (Result Pass msg) s).
Definition after_fail (msg : string) (s : State) : State :=
  set_FAILED (wrap64 (FAILED s + 1)) (print (Result Fail msg) s).
Definition after_warn (msg : string) (s : State) : State :=
  set_WARNINGS (wrap64 (WARNINGS s + 1)) (print (Result Warn msg) s).

(** [c] keeps [P], whether it lets the script go on or ends it. *)
Definition preserves (P : State -> Prop) (c : cmd) : Prop :=
  forall s, P s -> P (final (c s)).


(** The lines a command adds to what was printed before it. *)
Definition added (c : cmd) (s : State) : list line :=
  drop (length (stdout s)) (stdout (final (c s))).

(** A counter agrees with the report when it equals the number of
    result lines of its tag, as a 64-bit shell integer. *)
Definition counted (t : tag) (s : State) : Z :=
  wrap64 (Z.of_nat (count_tag t (stdout s))).

Definition consistent (s : State) : Prop :=
  PASSED s = counted Pass s /\ FAILED s = counted Fail s /\ WARNINGS s = counted Warn s.

(** The text occurs in some line of the file. *)
Definition occurs_in (text : string) (ls : list string) : Prop :=
  exists pre post, (pre +:+ text +:+ post) ∈ ls.

(** The texts an atom stands for. *)
Definition atom_word (env : Env) (a : atom) (ch : string) : Prop :=
  match a with
  | Lit d => ch = String d EmptyString
  | Any => character env ch = true
  end.

(** Any number of texts of the atom, one after the other. *)
Inductive atoms (env : Env) (a : atom) : string -> Prop :=
  | atoms_nil : atoms env a ""
  | atoms_cons ch w :
      atom_word env a ch -> atoms env a w -> atoms env a (ch +:+ w).

(** A sequence of characters of the locale. *)
Definition characters (env : Env) (w : string) : Prop := atoms env Any w.

(** The words a pattern denotes. *)
Inductive bre_matches (env : Env) : list item -> string -> Prop :=
  | bre_nil : bre_matches env [] ""
  | bre_one a p ch s :
      atom_word env a ch -> bre_matches env p s ->
      bre_matches env (One a :: p) (ch +:+ s)
  | bre_star_skip a p s :
      bre_matches env p s -> bre_matches env (Star a :: p) s
  | bre_star_step a p ch s :
      atom_word env a ch -> bre_matches env (Star a :: p) s ->
      bre_matches env (Star a :: p) (ch +:+ s).

(** A pattern of literal text. *)
Fixpoint literal (w : string) : list item :=
  match w with
  | EmptyString => []
  | String c w' => One (Lit c) :: literal w'
  end.

(** Every byte of the text is below 128. *)
Fixpoint ascii_text (w : string) : bool :=
  match w with
  | EmptyString => true
  | String c w' => Nat.ltb (nat_of_ascii c) 128 && ascii_text w'
  end.

(** What the pattern of line 126 looks for in a line: [try_files], later
    on the line [index], one character, [html].  The line need not hold
    a [try_files] directive that falls back to [/index.html]. *)
Definition looks_like_spa_fallback (env : Env) (l : string) : Prop :=
  exists pre mid ch post,
    l = pre +:+ "try_files" +:+ mid +:+ "index" +:+ ch +:+ "html" +:+ post /\
    characters env mid /\ character env ch = true.

(** What the pattern of line 194 looks for in a line: the two dots of
    [TLSv1.2] and [TLSv1.3] stand for any character. *)
Definition looks_like_modern_ssl (env : Env) (l : string) : Prop :=
  exists pre c1 c2 post,
    l = pre +:+ "ssl_protocols TLSv1" +:+ c1 +:+ "2 TLSv1" +:+ c2 +:+ "3" +:+ post /\
    character env c1 = true /\ character env c2 = true.

(** The fallback heuristic finds what it looks for: [nginx.conf] can be
    read and one of its lines looks like the fallback. *)
Definition finds_spa_fallback (env : Env) : Prop :=
  exists ls, contents env !! "nginx.conf" = Some ls /\
             exists l, l ∈ ls /\ looks_like_spa_fallback env l.

Definition finds_modern_ssl (env : Env) : Prop :=
  exists ls, contents env !! "nginx.conf" = Some ls /\
             exists l, l ∈ ls /\ looks_like_modern_ssl env l.

(** Building again from unchanged inputs gives the same status and the
    same build output. *)
Definition build_stable (env : Env) : Prop :=
  forall d, npm_run_build env (snd (npm_run_build env d)) = npm_run_build env d.

(** The state a second run starts from: the counters and output of [s],
    the build output and image the first run left behind. *)
Definition restart (s after : State) : State :=
  {| PASSED := PASSED s; FAILED := FAILED s; WARNINGS := WARNINGS s;
     stdout := stdout s; dist := dist after; test_image := test_image after |}.

(** Two states that differ at most in the build output and the image. *)
Definition same_report (s s' : State) : Prop :=
  tally s = tally s' /\ stdout s = stdout s'.

(** ** Two runs side by side *)

(** Same counters, same output, build outputs related by [R]; the test
    image is left out, no check reads it. *)
Definition alike (R : Dist -> Dist -> Prop) (s s' : State) : Prop :=
  tally s = tally s' /\ stdout s = stdout s' /\ R (dist s) (dist s').

Definition alike_out (R : Dist -> Dist -> Prop) (o o' : outcome) : Prop :=
  match o, o' with
  | Running s, Running s' => alike R s s'
  | Exited code s, Exited code' s' => code = code' /\ alike R s s'
  | _, _ => False
  end.

(** [c] takes states that are alike to outcomes that are alike. *)
Definition respects (R : Dist -> Dist -> Prop) (c : cmd) : Prop :=
  forall s s', alike R s s' -> alike_out R (c s) (c s').

(** Build outputs from which [npm run build] does the same. *)
Definition same_build (env : Env) (d d' : Dist) : Prop :=
  npm_run_build env d = npm_run_build env d'.

(** The build output is the one the run found or the one a build of it
    produces. *)
Definition dist_from (env : Env) (d0 : Dist) (s : State) : Prop :=
  dist s = d0 \/ dist s = snd (npm_run_build env d0).

(** ** Environments *)

(** What [grep] can read is a file of the project directory. *)
Definition well_formed (env : Env) : Prop := dom (contents env) ⊆ regular_files env.

Definition with_fs (fs ds : gset string) (env : Env) : Env :=
  {| clear_status := clear_status env; docker_installed := docker_installed env;
     docker_version := docker_version env; docker_info := docker_info env;
     regular_files := fs; dirs := ds; contents := contents env;
     locale_character := locale_character env;
     openssl_installed := openssl_installed env; openssl_enddate := openssl_enddate env;
     nginx_t := nginx_t env; nginx_t_again := nginx_t_again env;
     nginx_t_report := nginx_t_report env; npm_run_build := npm_run_build env;
     du_dist := du_dist env; docker_build := docker_build env;
     docker_images := docker_images env; docker_rmi := docker_rmi env;
     dig_installed := dig_installed env; dig_short := dig_short env;
     port_in_use := port_in_use env |}.

Definition with_openssl (installed : bool) (enddate : string) (env : Env) : Env :=
  {| clear_status := clear_status env; docker_installed := docker_installed env;
     docker_version := docker_version env; docker_info := docker_info env;
     regular_files := regular_files env; dirs := dirs env; contents := contents env;
     locale_character := locale_character env;
     openssl_installed := installed; openssl_enddate := enddate;
     nginx_t := nginx_t env; nginx_t_again := nginx_t_again env;
     nginx_t_report := nginx_t_report env; npm_run_build := npm_run_build env;
     du_dist := du_dist env; docker_build := docker_build env;
     docker_images := docker_images env; docker_rmi := docker_rmi env;
     dig_installed := dig_installed env; dig_short := dig_short env;
     port_in_use := port_in_use env |}.

Definition with_docker_rmi (status : Z) (env : Env) : Env :=
  {| clear_status := clear_status env; docker_installed := docker_installed env;
     docker_version := docker_version env; docker_info := docker_info env;
     regular_files := regular_files env; dirs := dirs env; contents := contents env;
     locale_character := locale_character env;
     openssl_installed := openssl_installed env; openssl_enddate := openssl_enddate env;
     nginx_t := nginx_t env; nginx_t_again := nginx_t_again env;
     nginx_t_report := nginx_t_report env; npm_run_build := npm_run_build env;
     du_dist := du_dist env; docker_build := docker_build env;
     docker_images := docker_images env; docker_rmi := status;
     dig_installed := dig_installed env; dig_short := dig_short env;
     port_in_use := port_in_use env |}.

Definition no_dist : Dist := {| dist_dir := false; dist_index_html := false |}.
Definition built_dist : Dist := {| dist_dir := true; dist_index_html := true |}.

(** A host on which every tool is installed and succeeds: docker with
    its daemon, openssl, npm, dig; ports 80 and 443 are free.  The
    project directory holds the files [fs] with the readable texts [cs];
    [ds] are the directories. *)
(** The C locale: every single byte is a character. *)
Definition single_byte (ch : string) : bool :=
  match ch with
  | String _ EmptyString => true
  | _ => false
  end.

Definition host (fs ds : gset string) (cs : gmap string (list string)) : Env :=
  {| clear_status := 0; docker_installed := true; docker_version := "24.0.7";
     docker_info := 0;
     regular_files := fs; dirs := ds; contents := cs;
     locale_character := single_byte;
     openssl_installed := true; openssl_enddate := "Jan  1 00:00:00 2027 GMT";
     nginx_t := 0; nginx_t_again := 0; nginx_t_report := "";
     npm_run_build := fun _ => (0, built_dist);
     du_dist := "1.2M"; docker_build := 0; docker_images := (0, "45MB");
     docker_rmi := 0; dig_installed := true; dig_short := "203.0.113.7";
     port_in_use := fun _ => false |}.

Definition Dockerfile_text : list string :=
  ["FROM nginx:1.27-alpine"; "COPY dist /usr/share/nginx/html"; "USER nginx"]%string.

Definition two_files : gset string := {[ "Dockerfile"; "package.json" ]}.

Definition two_texts : gmap string (list string) :=
  <[ "Dockerfile" := Dockerfile_text ]> {[ "package.json" := ["{"; "}"]%string ]}.

(** The project directory holds only [Dockerfile] and [package.json]. *)
Definition sample_host : Env := host two_files ∅ two_texts.

(** The same project with the docker daemon stopped: every docker
    command that needs the daemon fails. *)
Definition daemon_down : Env :=
  {| clear_status := 0; docker_installed := true; docker_version := "24.0.7";
     docker_info := 1;
     regular_files := two_files; dirs := ∅; contents := two_texts;
     locale_character := single_byte;
     openssl_installed := true; openssl_enddate := "Jan  1 00:00:00 2027 GMT";
     nginx_t := 125; nginx_t_again := 125;
     nginx_t_report := "docker: Cannot connect to the Docker daemon";
     npm_run_build := fun _ => (0, built_dist);
     du_dist := "1.2M"; docker_build := 1; docker_images := (1, "");
     docker_rmi := 1; dig_installed := true; dig_short := "203.0.113.7";
     port_in_use := fun _ => false |}.

(** All five required files; [nginx.conf] serves static files and has
    neither [proxy_pass] nor [try_files]. *)
Definition static_site : Env :=
  host (list_to_set files) ∅
    (<[ "nginx.conf" := ["server {"; "    listen 80;";
                         "    root /usr/share/nginx/html;"; "}"]%string ]>
     (<[ "vite.config.js" := ["export default { build: { minify: 'esbuild' } }"]%string ]>
      (<[ ".dockerignore" := ["node_modules"]%string ]> two_texts))).

(** An [nginx.conf] with the fallback directive and a leftover upstream. *)
Definition spa_behind_proxy : Env :=
  host ({[ "nginx.conf" ]} ∪ two_files) ∅
    (<[ "nginx.conf" := ["location / {";
                         "    try_files $uri $uri/ /index.html;";
                         "    proxy_pass http://frontend:3000;";
                         "}"]%string ]> two_texts).

(** Certificates issued by the certificate authority. *)
Definition ca_certificates : Env :=
  with_fs ({[ CERT_PATH +:+ "/fullchain.pem"; CERT_PATH +:+ "/privkey.pem" ]} ∪ two_files)
          {[ CERT_PATH ]} sample_host.

(** The authority's directory exists but lacks the private key, while
    the local directory holds both files. *)
Definition ca_incomplete_local_complete : Env :=
  with_fs ({[ CERT_PATH +:+ "/fullchain.pem";
              LOCAL_CERT_PATH +:+ "/fullchain.pem"; LOCAL_CERT_PATH +:+ "/privkey.pem" ]}
           ∪ two_files)
          {[ CERT_PATH; LOCAL_CERT_PATH ]} sample_host.

(** Only the local directory, with both files. *)
Definition local_certificates : Env :=
  with_fs ({[ LOCAL_CERT_PATH +:+ "/fullchain.pem"; LOCAL_CERT_PATH +:+ "/privkey.pem" ]}
           ∪ two_files)
          {[ LOCAL_CERT_PATH ]} sample_host.

(** Counters that are all past zero, as in the middle of a long run. *)
Definition warm (d : Dist) (img : bool) : State :=
  {| PASSED := 1; FAILED := 1; WARNINGS := 1;
     stdout := [Result Pass "p"; Result Fail "f"; Result Warn "w"];
     dist := d; test_image := img |}.

(** What has been printed when the first check starts. *)
Definition first_report (d : Dist) (img : bool) : State :=
  print (Header "1. Docker Environment")
    (print (Echo "Production Readiness & Security Check") (initial d img)).

(** Everything in place: the five files and the authority's certificates. *)
Definition ready_site : Env :=
  with_fs ({[ CERT_PATH +:+ "/fullchain.pem"; CERT_PATH +:+ "/privkey.pem" ]}
           ∪ list_to_set files)
          {[ CERT_PATH ]} static_site.

(** An [nginx.conf] whose [try_files] falls back to the 404 page; the
    same line names the index page. *)
Definition fallback_to_404 : Env :=
  host ({[ "nginx.conf" ]} ∪ two_files) ∅
    (<[ "nginx.conf" := ["location / {";
                         "    try_files $uri =404; index index.html;";
                         "}"]%string ]> two_texts).

Definition with_npm_run_build (build : Dist -> Z * Dist) (env : Env) : Env :=
  {| clear_status := clear_status env; docker_installed := docker_installed env;
     docker_version := docker_version env; docker_info := docker_info env;
     regular_files := regular_files env; dirs := dirs env; contents := contents env;
     locale_character := locale_character env;
     openssl_installed := openssl_installed env; openssl_enddate := openssl_enddate env;
     nginx_t := nginx_t env; nginx_t_again := nginx_t_again env;
     nginx_t_report := nginx_t_report env; npm_run_build := build;
     du_dist := du_dist env; docker_build := docker_build env;
     docker_images := docker_images env; docker_rmi := docker_rmi env;
     dig_installed := dig_installed env; dig_short := dig_short env;
     port_in_use := port_in_use env |}.

(** A fully provisioned site whose build succeeds on a clean tree and
    fails once [dist/] exists, leaving it as it is. *)
Definition build_once : Env :=
  with_npm_run_build (fun d => if dist_dir d then (1, d) else (0, built_dist)) ready_site.

Definition with_locale (locale : string -> bool) (env : Env) : Env :=
  {| clear_status := clear_status env; docker_installed := docker_installed env;
     docker_version := docker_version env; docker_info := docker_info env;
     regular_files := regular_files env; dirs := dirs env; contents := contents env;
     locale_character := locale;
     openssl_installed := openssl_installed env; openssl_enddate := openssl_enddate env;
     nginx_t := nginx_t env; nginx_t_again := nginx_t_again env;
     nginx_t_report := nginx_t_report env; npm_run_build := npm_run_build env;
     du_dist := du_dist env; docker_build := docker_build env;
     docker_images := docker_images env; docker_rmi := docker_rmi env;
     dig_installed := dig_installed env; dig_short := dig_short env;
     port_in_use := port_in_use env |}.

(** A UTF-8 locale as far as its two-byte characters go: a byte from 194
    to 223 followed by a byte from 128 to 191. *)
Definition two_byte (ch : string) : bool :=
  match ch with
  | String a (String b EmptyString) =>
      Nat.leb 194 (nat_of_ascii a) && Nat.leb (nat_of_ascii a) 223 &&
      Nat.leb 128 (nat_of_ascii b) && Nat.leb (nat_of_ascii b) 191
  | _ => false
  end.

(** An [nginx.conf] with the two bytes 195 169, e acute in UTF-8, where
    the pattern of line 126 has its dot. *)
Definition accented_site : Env :=
  host ({[ "nginx.conf" ]} ∪ two_files) ∅
    (<[ "nginx.conf" :=
          [("    try_files $uri /index" +:+
            String (ascii_of_nat 195) (String (ascii_of_nat 169) "html;"))%string] ]>
       two_texts).

(** Passes and warnings already counted, no failure yet. *)
Definition no_failure_yet (d : Dist) (img : bool) : State :=
  {| PASSED := 1; FAILED := 0; WARNINGS := 1;
     stdout := [Result Pass "p"; Result Warn "w"];
     dist := d; test_image := img |}.

(** When [c] ends the script with status 0, no check has failed. *)
Definition zero_exit_clean (c : cmd) : Prop :=
  forall s code s', c s = Exited code s' -> code = 0 -> FAILED s' = 0.

(** [c] always ends the script. *)
Definition always_exits (c : cmd) : Prop := forall s, is_running (c s) = false.

(** ** Counters that are already counting *)

Definition is_banner (l : line) : bool :=
  match l with Banner _ => true | _ => false end.

(** No closing banner has been printed. *)
Definition no_banner (ls : list line) : Prop :=
  Forall (fun l => is_banner l = false) ls.

(** A counter that [k] more increments bring neither to 0 nor to the
    point where it wraps. *)
Definition counting (k v : Z) : Prop := 0 < v /\ v + k < 2 ^ 62.

(** A state from which [k] more results can be counted: [PASSED] and
    [WARNINGS] are counting; [FAILED] is still 0 ([failed_zero]) or is
    counting as well. *)
Definition ready (failed_zero : bool) (k : Z) (s : State) : Prop :=
  counting k (PASSED s) /\ counting k (WARNINGS s) /\
  (if failed_zero then FAILED s = 0 else counting k (FAILED s)) /\
  no_banner (stdout s).

(** What a command does from a ready state, read off the build output
    [d] it finds: when [ok d] it lets the script go on, after at most
    [n] results and with the build output [f d]; otherwise it ends the
    script with a status other than 0. *)
Definition goes_on (fz : bool) (c : cmd) (ok : Dist -> bool) (f : Dist -> Dist) (n : Z) : Prop :=
  forall k s, n <= k -> ready fz k s ->
    if ok (dist s)
    then exists s', c s = Running s' /\ ready fz (k - n) s' /\ dist s' = f (dist s)
    else exists code s', c s = Exited code s' /\ code <> 0 /\ no_banner (stdout s').

(** The same for a command that ends with the summary: when [ok d] the
    script ends at its last line, with the banner for [fz] and the exit
    status that goes with it. *)
Definition verdict (fz : bool) (c : cmd) (ok : Dist -> bool) (n : Z) : Prop :=
  forall k s, n <= k -> ready fz k s ->
    if ok (dist s)
    then exists s', c s = Exited (if fz then 0 else 1) s' /\
                    last (stdout s') = Some (Banner fz)
    else exists code s', c s = Exited code s' /\ code <> 0 /\ no_banner (stdout s').

(** A required check with outcome [b]: [check_pass] when [b], else
    [check_fail], which ends the script when [FAILED] is still 0. *)
Definition passes (fz b : bool) : bool := b || negb fz.

(** Lines 87-110: the certificate files are where the check looks. *)
Definition certificates_found (env : Env) : bool :=
  if test_d env CERT_PATH
  then test_f env (CERT_PATH +:+ "/fullchain.pem") && test_f env (CERT_PATH +:+ "/privkey.pem")
  else if test_d env LOCAL_CERT_PATH
  then test_f env (LOCAL_CERT_PATH +:+ "/fullchain.pem")
       && test_f env (LOCAL_CERT_PATH +:+ "/privkey.pem")
  else false.

(** Lines 140-157: the build succeeds and, where it leaves a [dist/],
    [dist/index.html] is in it. *)
Definition build_found (env : Env) (d : Dist) : bool :=
  let '(status, d') := npm_run_build env d in
  (status =? 0) && (negb (dist_dir d') || dist_index_html d').

(** Every check that can report a Fail reports a Pass, and [docker
    images] succeeds. *)
Definition required_ok (env : Env) (d : Dist) : bool :=
  docker_installed env && (docker_info env =? 0) &&
  forallb (test_f env) files &&
  certificates_found env &&
  (nginx_t env =? 0) &&
  build_found env d &&
  (docker_build env =? 0) && (fst (docker_images env) =? 0).

(** The two commands that stand outside any condition succeed where
    they are run: [docker run ... nginx -t] at line 118, [docker images]
    at line 165. *)
Definition unguarded_ok (env : Env) : bool :=
  ((nginx_t env =? 0) || (nginx_t_again env =? 0)) &&
  (negb (docker_build env =? 0) || (fst (docker_images env) =? 0)).

(** Lines 114-119 let the script go on when [nginx -t] succeeds, or when
    its Fail is not the first and the second [docker run] succeeds. *)
Definition nginx_goes_on (fz : bool) (env : Env) : bool :=
  if nginx_t env =? 0 then true else negb fz && (nginx_t_again env =? 0).

(** Lines 140-157. *)
Definition build_goes_on (fz : bool) (env : Env) (d : Dist) : bool :=
  let '(status, d') := npm_run_build env d in
  if status =? 0
  then (if dist_dir d' then passes fz (dist_index_html d') else true)
  else negb fz.

(** Lines 161-172. *)
Definition docker_build_goes_on (fz : bool) (env : Env) : bool :=
  if docker_build env =? 0 then fst (docker_images env) =? 0 else negb fz.

(** The ten sections let the script go on to its summary. *)
Definition goes_through (fz : bool) (env : Env) (d : Dist) : bool :=
  passes fz (docker_installed env) && passes fz (docker_info env =? 0) &&
  forallb (fun file => passes fz (test_f env file)) files &&
  passes fz (certificates_found env) &&
  nginx_goes_on fz env &&
  build_goes_on fz env d &&
  docker_build_goes_on fz env.

(** Sections 7 to 10 (lines 174-259): every check of theirs reports Pass
    or Warn. *)
Definition advisory_sections (env : Env) : cmd :=
  security_configuration env ;;
  performance_configuration env ;;
  dns_configuration env ;;
  port_availability env.

(** ** Patterns without operators *)

(** The characters that act as operators in a basic regular expression,
    the dot apart.  None of the script's patterns but the fallback
    pattern of line 126 contains one. *)
Definition bre_operator (c : ascii) : bool :=
  existsb (Ascii.eqb c) ["*"; "["; "]"; "\"; "^"; "$"]%char.

Fixpoint operator_free (p : string) : bool :=
  match p with
  | EmptyString => true
  | String c p' => negb (bre_operator c) && operator_free p'
  end.

Fixpoint dot_free (p : string) : bool :=
  match p with
  | EmptyString => true
  | String c p' => negb (Ascii.eqb c ".") && dot_free p'
  end.

(** The line the loop of lines 74-80 reports for a file. *)
Definition required_file_line (env : Env) (file : string) : line :=
  if test_f env file
  then Result Pass (file +:+ " exists")
  else Result Fail (file +:+ " is missing").

(** How many of the files exist. *)
Fixpoint present (env : Env) (l : list string) : Z :=
  match l with
  | [] => 0
  | file :: l' => (if test_f env file then 1 else 0) + present env l'
  end.

(** * vite.config.js: where the build puts an asset (lines 30-39) *)

(** The regular expressions of [assetFileNames] are built from
    characters, sequence, alternative and option. *)
Inductive regex :=
  | Eps
  | Chr (c : ascii)
  | Cat (r1 r2 : regex)
  | Alt (r1 r2 : regex)
  | Opt (r : regex).

(** The [i] flag compares characters by their upper-case forms; of the
    characters below 128 only the letters a to z have one that differs,
    and no character from 128 on is taken to one below 128. *)
Definition to_upper (c : ascii) : ascii :=
  let n := nat_of_ascii c in
  if Nat.leb 97 n && Nat.leb n 122 then ascii_of_nat (n - 32)%nat else c.

Fixpoint upper (s : string) : string :=
  match s with
  | EmptyString => EmptyString
  | String c s' => String (to_upper c) (upper s')
  end.

(** The texts that a match of [r] at the start of [s] can leave. *)
Fixpoint matches (r : regex) (s : string) : list string :=
  match r with
  | Eps => [s]
  | Chr c =>
      match s with
      | String d s' => if Ascii.eqb (to_upper d) (to_upper c) then [s'] else []
      | EmptyString => []
      end
  | Cat r1 r2 => flat_map (matches r2) (matches r1 s)
  | Alt r1 r2 => matches r1 s ++ matches r2 s
  | Opt r' => matches r' s ++ [s]
  end.

(** [/r$/i.test(s)]: a match of [r] starts somewhere in [s] and ends
    where [s] ends. *)
Fixpoint test_at_end (r : regex) (s : string) : bool :=
  existsb (String.eqb "") (matches r s) ||
  match s with
  | String _ s' => test_at_end r s'
  | EmptyString => false
  end.

Fixpoint word (w : string) : regex :=
  match w with
  | EmptyString => Eps
  | String c w' => Cat (Chr c) (word w')
  end.

(** [\.(png|jpe?g|gif|svg|webp|ico)] *)
Definition images_re : regex :=
  Cat (Chr ".")
      (Alt (word "png")
      (Alt (Cat (word "jp") (Cat (Opt (Chr "e")) (Chr "g")))
      (Alt (word "gif")
      (Alt (word "svg")
      (Alt (word "webp") (word "ico")))))).

(** [\.(woff2?|eot|ttf|otf)] *)
Definition fonts_re : regex :=
  Cat (Chr ".")
      (Alt (Cat (word "woff") (Opt (Chr "2")))
      (Alt (word "eot")
      (Alt (word "ttf") (word "otf")))).

(** [name.split('.')] *)
Fixpoint split_dot (s : string) : list string :=
  match s with
  | EmptyString => [EmptyString]
  | String c s' =>
      if Ascii.eqb c "." then EmptyString :: split_dot s'
      else match split_dot s' with
           | h :: t => String c h :: t
           | [] => [String c EmptyString]
           end
  end.

(** [info[info.length - 1]], the value of [ext] at line 32. *)
Definition extension (name : string) : string := List.last (split_dot name) EmptyString.

(** Lines 30-39; [ext] is computed and not used. *)
Definition assetFileNames (name : string) : string :=
  let info := split_dot name in
  let ext := List.last info EmptyString in
  if test_at_end images_re name then "assets/images/[name]-[hash][extname]"
  else if test_at_end fonts_re name then "assets/fonts/[name]-[hash][extname]"
  else "assets/[name]-[hash][extname]".

(** The words of a regular expression, up to case. *)
Fixpoint words (r : regex) : list string :=
  match r with
  | Eps => [EmptyString]
  | Chr c => [String c EmptyString]
  | Cat r1 r2 => flat_map (fun w1 => map (String.append w1) (words r2)) (words r1)
  | Alt r1 r2 => words r1 ++ words r2
  | Opt r' => words r' ++ [EmptyString]
  end.

(** Every word of [r] is a dot followed by text without a dot. *)
Definition dotted_words (r : regex) : bool :=
  forallb (fun w => match w with
                    | String c e => Ascii.eqb c "." && dot_free e
                    | EmptyString => false
                    end) (words r).

(** The words of [r] without their first character, in upper case. *)
Definition extensions (r : regex) : list string :=
  map (fun w => match w with String _ e => upper e | EmptyString => EmptyString end) (words r).

(** The directory chosen by the text after the last dot. *)
Definition by_extension (name : string) : string :=
  let ext := upper (extension name) in
  let dotted := negb (dot_free name) in
  if dotted && existsb (String.eqb ext) ["PNG"; "JPG"; "JPEG"; "GIF"; "SVG"; "WEBP"; "ICO"]%string
  then "assets/images/[name]-[hash][extname]"
  else if dotted && existsb (String.eqb ext) ["WOFF"; "WOFF2"; "EOT"; "TTF"; "OTF"]%string
  then "assets/fonts/[name]-[hash][extname]"
  else "assets/[name]-[hash][extname]".

(** * Properties *)

(** ** The shell *)

Section Shell.

Lemma seq_running c1 c2 s s' : c1 s = Running s' -> (c1 ;; c2) s = c2 s'.
Proof. unfold seq. now intros ->. Qed.

Lemma seq_exited c1 c2 s code s' :
  c1 s = Exited code s' -> (c1 ;; c2) s = Exited code s'.
Proof. unfold seq. now intros ->. Qed.

Lemma seq_assoc c1 c2 c3 s : ((c1 ;; c2) ;; c3) s = (c1 ;; c2 ;; c3) s.
Proof. unfold seq. now destruct (c1 s). Qed.

Lemma wrap64_small z : - 2 ^ 63 <= z < 2 ^ 63 -> wrap64 z = z.
Proof. intros H. unfold wrap64. rewrite Z.mod_small; lia. Qed.

Lemma wrap64_succ z : wrap64 (wrap64 z + 1) = wrap64 (z + 1).
Proof.
  unfold wrap64.
  replace ((z + 2 ^ 63) mod 2 ^ 64 - 2 ^ 63 + 1 + 2 ^ 63)
    with ((z + 2 ^ 63) mod 2 ^ 64 + 1) by lia.
  rewrite Z.add_mod_idemp_l by lia.
  f_equal. f_equal. lia.
Qed.

Lemma check_pass_eq msg s :
  check_pass msg s =
  if PASSED s =? 0 then Exited 1 (after_pass msg s) else Running (after_pass msg s).
Proof.
  unfold check_pass, seq, echo, post_incr, errexit, after_pass. cbn.
  now destruct (PASSED s =? 0).
Qed.

Lemma check_fail_eq msg s :
  check_fail msg s =
  if FAILED s =? 0 then Exited 1 (after_fail msg s) else Running (after_fail msg s).
Proof.
  unfold check_fail, seq, echo, post_incr, errexit, after_fail. cbn.
  now destruct (FAILED s =? 0).
Qed.

Lemma check_warn_eq msg s :
  check_warn msg s =
  if WARNINGS s =? 0 then Exited 1 (after_warn msg s) else Running (after_warn msg s).
Proof.
  unfold check_warn, seq, echo, post_incr, errexit, after_warn. cbn.
  now destruct (WARNINGS s =? 0).
Qed.

Lemma final_check_pass msg s : final (check_pass msg s) = after_pass msg s.
Proof. rewrite check_pass_eq. now destruct (PASSED s =? 0). Qed.

Lemma final_check_fail msg s : final (check_fail msg s) = after_fail msg s.
Proof. rewrite check_fail_eq. now destruct (FAILED s =? 0). Qed.

Lemma final_check_warn msg s : final (check_warn msg s) = after_warn msg s.
Proof. rewrite check_warn_eq. now destruct (WARNINGS s =? 0). Qed.

End Shell.

(** ** Invariants carried through the script *)

Section Preservation.

Variable P : State -> Prop.
Variable env : Env.

Local Abbreviation preserves := (preserves P).

Lemma preserves_skip : preserves skip.
Proof. now intros s H. Qed.

Lemma preserves_seq c1 c2 : preserves c1 -> preserves c2 -> preserves (c1 ;; c2).
Proof.
  intros H1 H2 s Hs. unfold seq. specialize (H1 s Hs).
  destruct (c1 s) as [s'|code s']; cbn in *; auto.
Qed.

Lemma preserves_if (b : bool) c1 c2 :
  preserves c1 -> preserves c2 -> preserves (if b then c1 else c2).
Proof. now destruct b. Qed.

Lemma preserves_branch (b : State -> bool) c1 c2 :
  preserves c1 -> preserves c2 -> preserves (fun s => if b s then c1 s else c2 s).
Proof. intros H1 H2 s Hs. destruct (b s); auto. Qed.

Lemma preserves_for_each {A} (l : list A) body :
  (forall x, preserves (body x)) -> preserves (for_each l body).
Proof.
  intros H. induction l as [|x l IH]; cbn.
  - apply preserves_skip.
  - apply preserves_seq; auto.
Qed.

Lemma preserves_errexit status : preserves (errexit status).
Proof. intros s Hs. unfold errexit. now destruct (status =? 0). Qed.

Lemma preserves_exit code : preserves (exit code).
Proof. now intros s Hs. Qed.

Lemma preserves_if_grep pattern file c1 c2 :
  preserves c1 -> preserves c2 -> preserves (if_grep env pattern file c1 c2).
Proof. unfold if_grep. apply preserves_if. Qed.

(** What is left to show for a given [P]: the steps that change the
    state. *)
Hypothesis P_print : forall l s, is_result l = false -> P s -> P (print l s).
Hypothesis P_pass : forall msg s, P s -> P (after_pass msg s).
Hypothesis P_fail : forall msg s, P s -> P (after_fail msg s).
Hypothesis P_warn : forall msg s, P s -> P (after_warn msg s).
Hypothesis P_image : forall b s, P s -> P (set_test_image b s).
Hypothesis P_build : forall s, P s -> P (set_dist (snd (npm_run_build env (dist s))) s).

Lemma preserves_echo l : is_result l = false -> preserves (echo l).
Proof. intros Hl s Hs. now apply P_print. Qed.

Lemma preserves_check_pass msg : preserves (check_pass msg).
Proof. intros s Hs. rewrite final_check_pass. auto. Qed.

Lemma preserves_check_fail msg : preserves (check_fail msg).
Proof. intros s Hs. rewrite final_check_fail. auto. Qed.

Lemma preserves_check_warn msg : preserves (check_warn msg).
Proof. intros s Hs. rewrite final_check_warn. auto. Qed.

Local Hint Resolve preserves_skip preserves_seq preserves_if preserves_branch
  preserves_for_each preserves_errexit preserves_exit preserves_if_grep
  preserves_echo preserves_check_pass preserves_check_fail preserves_check_warn
  : core.

Lemma preserves_docker_environment : preserves (docker_environment env).
Proof.
  unfold docker_environment, docker_installed_check, docker_daemon_check, print_header.
  auto 10.
Qed.

Lemma preserves_required_files : preserves (required_files env).
Proof.
  unfold required_files, print_header. apply preserves_seq; auto.
  apply preserves_for_each. intros x. unfold required_file_check. auto.
Qed.

Lemma preserves_certificate_check : preserves (certificate_check env).
Proof. unfold certificate_check, expiry_check. auto 10. Qed.

Lemma preserves_nginx_configuration : preserves (nginx_configuration env).
Proof.
  unfold nginx_configuration, nginx_config_test, proxy_pass_heuristic,
    spa_fallback_heuristic, print_header. auto 10.
Qed.

Lemma preserves_dist_checks : preserves (dist_checks env).
Proof.
  unfold dist_checks, index_html_check.
  apply (preserves_branch (fun s => dist_dir (dist s))); auto.
Qed.

Lemma preserves_production_build : preserves (production_build env).
Proof.
  intros s Hs. unfold production_build.
  pose proof (P_build s Hs) as Hd.
  destruct (npm_run_build env (dist s)) as [status d]. cbn in Hd.
  destruct (status =? 0).
  - apply (preserves_seq _ _ (preserves_check_pass _) preserves_dist_checks), Hd.
  - apply preserves_check_fail, Hd.
Qed.

Lemma preserves_build_test : preserves (build_test env).
Proof.
  unfold build_test, node_modules_check, print_header.
  auto using preserves_production_build.
Qed.

Lemma preserves_docker_rmi_or_true : preserves (docker_rmi_or_true env).
Proof.
  intros s Hs. unfold docker_rmi_or_true. cbn. destruct (docker_rmi env =? 0); auto.
Qed.

Lemma preserves_docker_build_check : preserves (docker_build_check env).
Proof.
  unfold docker_build_check.
  assert (preserves (fun s => Running (set_test_image true s))) by (intros s Hs; cbn; auto).
  auto 10 using preserves_docker_rmi_or_true.
Qed.

Lemma preserves_security_configuration : preserves (security_configuration env).
Proof.
  unfold security_configuration, print_header.
  apply preserves_seq; auto. apply preserves_seq; auto.
  apply preserves_for_each. intros x. unfold security_header_check. auto.
Qed.

Lemma preserves_performance_configuration :
  preserves (performance_configuration env).
Proof. unfold performance_configuration, print_header. auto 10. Qed.

Lemma preserves_dns_configuration : preserves (dns_configuration env).
Proof. unfold dns_configuration, print_header. auto 10. Qed.

Lemma preserves_port_availability : preserves (port_availability env).
Proof.
  unfold port_availability, print_header. apply preserves_seq; auto.
  apply preserves_for_each. intros x. unfold port_check. auto.
Qed.

Lemma preserves_summary : preserves summary.
Proof.
  unfold summary, print_header. apply preserves_seq; auto.
  intros s Hs. cbv zeta.
  match goal with
  | |- P (final (?c s)) => assert (Hc : preserves c) by auto 10; exact (Hc s Hs)
  end.
Qed.

Lemma preserves_battery : preserves (battery env).
Proof.
  unfold battery, ssl_certificates, docker_build_test, print_header.
  auto 20 using preserves_docker_environment, preserves_required_files,
    preserves_certificate_check, preserves_nginx_configuration,
    preserves_build_test, preserves_docker_build_check,
    preserves_security_configuration, preserves_performance_configuration,
    preserves_dns_configuration, preserves_port_availability, preserves_summary.
Qed.

Lemma preserves_check_production : preserves (check_production env).
Proof. unfold check_production. auto using preserves_battery. Qed.

End Preservation.
(** ** Counters and result lines *)

Section Counting.

Lemma results_app l1 l2 : results (l1 ++ l2) = results l1 ++ results l2.
Proof.
  induction l1 as [|[t m| | | |] l1 IH]; cbn; auto.
  now rewrite IH.
Qed.

Lemma results_not_result l : is_result l = false -> results [l] = [].
Proof. now destruct l. Qed.

Lemma count_tag_app t l1 l2 :
  count_tag t (l1 ++ l2) = (count_tag t l1 + count_tag t l2)%nat.
Proof.
  induction l1 as [|[u m| | | |] l1 IH]; cbn; auto.
  rewrite IH. lia.
Qed.

Lemma count_tag_result t u msg :
  count_tag t [Result u msg] = if tag_eqb t u then 1%nat else 0%nat.
Proof. cbn. lia. Qed.

Lemma count_tag_total ls :
  (count_tag Pass ls + count_tag Fail ls + count_tag Warn ls)%nat = length (results ls).
Proof.
  induction ls as [|[[] m| | | |] ls IH]; cbn; lia.
Qed.

Lemma count_tag_not_result t l : is_result l = false -> count_tag t [l] = 0%nat.
Proof. now destruct l. Qed.

Lemma counted_print t l s : is_result l = false -> counted t (print l s) = counted t s.
Proof.
  intros Hl. unfold counted. cbn.
  rewrite count_tag_app, (count_tag_not_result t l Hl). f_equal. lia.
Qed.

Lemma counted_result t u msg s :
  counted t (print (Result u msg) s) =
  if tag_eqb t u then wrap64 (counted t s + 1) else counted t s.
Proof.
  unfold counted. cbn. rewrite count_tag_app, count_tag_result.
  destruct (tag_eqb t u).
  - rewrite wrap64_succ. f_equal. lia.
  - f_equal. lia.
Qed.

Lemma consistent_print l s : is_result l = false -> consistent s -> consistent (print l s).
Proof.
  intros Hl (Hp & Hf & Hw). unfold consistent.
  rewrite !counted_print by assumption. now cbn.
Qed.

Lemma consistent_after_pass msg s : consistent s -> consistent (after_pass msg s).
Proof.
  intros (Hp & Hf & Hw). unfold consistent, after_pass, counted in *. cbn.
  rewrite !count_tag_app, !count_tag_result. cbn.
  rewrite !Nat.add_0_r, Hp, wrap64_succ.
  repeat split; auto. f_equal. lia.
Qed.

Lemma consistent_after_fail msg s : consistent s -> consistent (after_fail msg s).
Proof.
  intros (Hp & Hf & Hw). unfold consistent, after_fail, counted in *. cbn.
  rewrite !count_tag_app, !count_tag_result. cbn.
  rewrite !Nat.add_0_r, Hf, wrap64_succ.
  repeat split; auto. f_equal. lia.
Qed.

Lemma consistent_after_warn msg s : consistent s -> consistent (after_warn msg s).
Proof.
  intros (Hp & Hf & Hw). unfold consistent, after_warn, counted in *. cbn.
  rewrite !count_tag_app, !count_tag_result. cbn.
  rewrite !Nat.add_0_r, Hw, wrap64_succ.
  repeat split; auto. f_equal. lia.
Qed.

Lemma consistent_check_production env : preserves consistent (check_production env).
Proof.
  apply preserves_check_production;
    auto using consistent_print, consistent_after_pass, consistent_after_fail,
      consistent_after_warn.
Qed.

Lemma wrap64_add_l a b : wrap64 (wrap64 a + b) = wrap64 (a + b).
Proof.
  unfold wrap64.
  replace ((a + 2 ^ 63) mod 2 ^ 64 - 2 ^ 63 + b + 2 ^ 63)
    with ((a + 2 ^ 63) mod 2 ^ 64 + b) by lia.
  rewrite Z.add_mod_idemp_l by lia. f_equal. f_equal. lia.
Qed.

Lemma consistent_total s :
  consistent s -> tally_total s = wrap64 (Z.of_nat (length (results (stdout s)))).
Proof.
  intros (Hp & Hf & Hw). unfold tally_total. rewrite Hp, Hf, Hw. unfold counted.
  rewrite <- count_tag_total.
  rewrite <- Z.add_assoc, wrap64_add_l.
  rewrite (Z.add_comm (Z.of_nat _) (_ + _)), <- Z.add_assoc, wrap64_add_l.
  rewrite (Z.add_comm (Z.of_nat _) (_ + _)), <- Z.add_assoc, wrap64_add_l.
  f_equal. lia.
Qed.

End Counting.

(** ** The sample environments *)

Lemma well_formed_by_evaluation env :
  bool_decide (dom (contents env) ⊆ regular_files env) = true -> well_formed env.
Proof. apply bool_decide_eq_true_1. Qed.

Lemma sample_environments_well_formed :
  well_formed sample_host /\ well_formed daemon_down /\ well_formed static_site /\
  well_formed spa_behind_proxy /\ well_formed ca_certificates /\
  well_formed ca_incomplete_local_complete /\ well_formed local_certificates /\
  well_formed ready_site.
Proof.
  repeat split; apply well_formed_by_evaluation; vm_compute; reflexivity.
Qed.

(** ** The run ends at its first check *)

Section FirstCheck.

Variable env : Env.
Variable d : Dist.
Variable img : bool.

(** The counters start at 0, so the first [((PASSED++))] or
    [((FAILED++))] returns status 1 and [set -e] ends the script. *)
Lemma run_eq :
  run env d img =
  if clear_status env =? 0 then
    Exited 1
      (if docker_installed env
       then after_pass ("Docker is installed (" +:+ docker_version env +:+ ")")
              (first_report d img)
       else after_fail "Docker is not installed" (first_report d img))
  else Exited (clear_status env) (initial d img).
Proof.
  unfold run, check_production, battery, docker_environment, print_header,
    docker_installed_check.
  unfold seq, errexit, echo. fold (first_report d img).
  destruct (clear_status env =? 0); [|reflexivity].
  fold (first_report d img).
  destruct (docker_installed env).
  - rewrite check_pass_eq. reflexivity.
  - rewrite check_fail_eq. reflexivity.
Qed.

(** A run ends before it has built anything. *)
Lemma run_eq_left_alone :
  dist (final (run env d img)) = d /\ test_image (final (run env d img)) = img.
Proof.
  rewrite run_eq.
  destruct (clear_status env =? 0); [destruct (docker_installed env)|]; now split.
Qed.

(** X1: no run of the script exits with status 0, and no run reports
    more than one result; the build output and the image are left as
    they were found. *)
Lemma run_never_succeeds :
  exists code s,
    run env d img = Exited code s /\ (code =? 0) = false /\
    (length (results (stdout s)) <= 1)%nat /\ dist s = d /\ test_image s = img.
Proof.
  rewrite run_eq. destruct (clear_status env =? 0) eqn:Hc.
  - eexists _, _. split; [reflexivity|]. destruct (docker_installed env); cbn; auto.
  - eexists _, _. split; [reflexivity|]. cbn. auto.
Qed.

End FirstCheck.

(** C1 does not hold of the script.  On a host where docker is installed
    the run prints its first Pass and ends with exit status 1 although
    no check has failed: the exit status is not 0 while the failed
    counter is 0. *)
Theorem exit_status_one_without_failed_check :
  exit_code (run sample_host no_dist false) = 1 /\
  tally (final (run sample_host no_dist false)) = (1, 0, 0) /\
  results (stdout (final (run sample_host no_dist false))) =
    [(Pass, "Docker is installed (24.0.7)"%string)].
Proof.
  rewrite run_eq. repeat split.
Qed.

(** Where the script does reach its last lines, the exit status is 0
    exactly when the failed counter is 0, whatever the other counters. *)
Lemma summary_exit_code s :
  exists s', summary s = Exited (if FAILED s =? 0 then 0 else 1) s' /\
             tally s' = tally s /\
             added summary s =
               [Header "Summary";
                Total Pass (PASSED s) (tally_total s);
                Total Fail (FAILED s) (tally_total s);
                Total Warn (WARNINGS s) (tally_total s);
                Banner (FAILED s =? 0)].
Proof.
  unfold added, summary, print_header, seq, echo, exit. cbn.
  destruct (FAILED s =? 0); eexists; (split; [reflexivity|]); cbn;
    (split; [reflexivity|]);
    rewrite <- !app_assoc; cbn; now rewrite drop_app_length.
Qed.




(** C3 does not hold of the script.  With the docker daemon stopped the
    run ends after its first result, before the daemon check is reported;
    and from counters past zero the battery ends inside the nginx
    section, at the unguarded [docker run] of line 118, with docker's
    status: none of the later sections and no summary is printed. *)
Theorem daemon_down_ends_the_run :
  run daemon_down no_dist false =
    Exited 1 (after_pass "Docker is installed (24.0.7)" (first_report no_dist false)) /\
  exit_code (battery daemon_down (warm no_dist false)) = 125 /\
  added (battery daemon_down) (warm no_dist false) =
    [Header "1. Docker Environment";
     Result Pass "Docker is installed (24.0.7)";
     Result Fail "Docker daemon is not running";
     Header "2. Required Files";
     Result Pass "Dockerfile exists";
     Result Fail "nginx.conf is missing";
     Result Pass "package.json exists";
     Result Fail "vite.config.js is missing";
     Result Fail ".dockerignore is missing";
     Header "3. SSL Certificates";
     Result Fail "No SSL certificates found";
     Echo certbot_hint;
     Header "4. nginx Configuration";
     Result Fail "nginx configuration has errors";
     Echo "docker: Cannot connect to the Docker daemon"].
Proof.
  split; [now rewrite run_eq|]. split; vm_compute; reflexivity.
Qed.

(** X3: an [nginx -t] that fails at line 114 and again at line 118
    always ends the script inside section 4.  When FAILED was 0 the
    script ends at the Fail itself, with status 1 and before the second
    [docker run] is reached; otherwise the Fail is recorded, the report
    of the second [docker run] is printed and its status becomes the
    exit status.  In both cases the Fail line is printed and counted. *)
Lemma nginx_config_test_ends_the_run env s :
  (nginx_t env =? 0) = false -> (nginx_t_again env =? 0) = false ->
  nginx_config_test env s =
    (if FAILED s =? 0
     then Exited 1 (after_fail "nginx configuration has errors" s)
     else Exited (nginx_t_again env)
            (print (Echo (nginx_t_report env))
               (after_fail "nginx configuration has errors" s))) /\
  is_running (nginx_config_test env s) = false /\
  exit_code (nginx_config_test env s) = (if FAILED s =? 0 then 1 else nginx_t_again env).
Proof.
  intros H1 H2. unfold nginx_config_test. rewrite H1.
  unfold seq. rewrite check_fail_eq. destruct (FAILED s =? 0); cbn.
  - repeat split.
  - unfold errexit. rewrite H2. repeat split.
Qed.

Lemma nginx_config_test_ends_the_run_witness :
  exit_code (nginx_config_test daemon_down (warm no_dist false)) = 125 /\
  exit_code (nginx_config_test daemon_down (initial no_dist false)) = 1.
Proof.
  split.
  - exact (proj2 (proj2 (nginx_config_test_ends_the_run daemon_down (warm no_dist false)
                           eq_refl eq_refl))).
  - exact (proj2 (proj2 (nginx_config_test_ends_the_run daemon_down (initial no_dist false)
                           eq_refl eq_refl))).
Defined.

(** ** What a check adds to the report *)

(** Run the next [check_pass], [check_fail] or [check_warn] in the goal
    on both sides of its counter being 0. *)
Ltac check_step :=
  match goal with
  | |- context [check_pass ?m ?s] => rewrite (check_pass_eq m s)
  | |- context [check_fail ?m ?s] => rewrite (check_fail_eq m s)
  | |- context [check_warn ?m ?s] => rewrite (check_warn_eq m s)
  end;
  match goal with
  | |- context [if ?b then Exited 1 _ else Running _] => destruct b eqn:?
  end.

(** Read off the lines added to [stdout s]. *)
Ltac read_added :=
  unfold added; cbn;
  rewrite <- ?app_assoc; cbn;
  rewrite ?drop_app_length, ?app_nil_r, ?drop_all.

Lemma added_check_pass msg s : added (check_pass msg) s = [Result Pass msg].
Proof. unfold added. rewrite final_check_pass. cbn. apply drop_app_length. Qed.

Lemma added_check_fail msg s : added (check_fail msg) s = [Result Fail msg].
Proof. unfold added. rewrite final_check_fail. cbn. apply drop_app_length. Qed.

Lemma added_check_warn msg s : added (check_warn msg) s = [Result Warn msg].
Proof. unfold added. rewrite final_check_warn. cbn. apply drop_app_length. Qed.

Lemma added_skip s : added skip s = [].
Proof. unfold added. cbn. apply drop_all. Qed.

(** Membership in a concrete set of paths is settled by evaluation. *)
Lemma path_in (x : string) (X : gset string) : bool_decide (x ∈ X) = true -> x ∈ X.
Proof. apply bool_decide_eq_true_1. Qed.

Lemma path_not_in (x : string) (X : gset string) : bool_decide (x ∈ X) = false -> x ∉ X.
Proof. apply bool_decide_eq_false_1. Qed.

(** ** The certificate check *)

Section Certificates.

Variable env : Env.
Variable s : State.

Lemma test_d_true path : path ∈ dirs env -> test_d env path = true.
Proof. apply bool_decide_eq_true_2. Qed.

Lemma test_d_false path : path ∉ dirs env -> test_d env path = false.
Proof. apply bool_decide_eq_false_2. Qed.

Lemma test_f_true path : path ∈ regular_files env -> test_f env path = true.
Proof. apply bool_decide_eq_true_2. Qed.

Lemma test_f_false path : path ∉ regular_files env -> test_f env path = false.
Proof. apply bool_decide_eq_false_2. Qed.

(** Neither directory: one Fail, then the hint unless the script ended
    at the Fail. *)
Lemma certificate_check_no_directory :
  CERT_PATH ∉ dirs env -> LOCAL_CERT_PATH ∉ dirs env ->
  certificate_check env s =
    if FAILED s =? 0
    then Exited 1 (after_fail "No SSL certificates found" s)
    else Running (print (Echo certbot_hint) (after_fail "No SSL certificates found" s)).
Proof.
  intros H1 H2. unfold certificate_check.
  rewrite (test_d_false _ H1), (test_d_false _ H2).
  unfold seq. rewrite check_fail_eq. now destruct (FAILED s =? 0).
Qed.

(** Only the local directory, complete: one Pass and nothing else. *)
Lemma certificate_check_local :
  CERT_PATH ∉ dirs env -> LOCAL_CERT_PATH ∈ dirs env ->
  LOCAL_CERT_PATH +:+ "/fullchain.pem" ∈ regular_files env ->
  LOCAL_CERT_PATH +:+ "/privkey.pem" ∈ regular_files env ->
  certificate_check env s = check_pass "SSL certificates found in certs/" s.
Proof.
  intros H1 H2 H3 H4. unfold certificate_check.
  now rewrite (test_d_false _ H1), (test_d_true _ H2), (test_f_true _ H3), (test_f_true _ H4).
Qed.

(** The authority's directory exists but a file is missing: one Fail. *)
Lemma certificate_check_incomplete :
  CERT_PATH ∈ dirs env ->
  CERT_PATH +:+ "/fullchain.pem" ∉ regular_files env \/
  CERT_PATH +:+ "/privkey.pem" ∉ regular_files env ->
  certificate_check env s =
    check_fail ("SSL certificate files missing in " +:+ CERT_PATH) s.
Proof.
  intros H1 H2. unfold certificate_check. rewrite (test_d_true _ H1).
  destruct H2 as [H2|H2]; rewrite (test_f_false _ H2); [reflexivity|].
  now rewrite andb_false_r.
Qed.

(** With the authority's directory present, nothing but the two files in
    it is looked at. *)
Lemma certificate_check_authority_only fs ds :
  CERT_PATH ∈ dirs env -> CERT_PATH ∈ ds ->
  (CERT_PATH +:+ "/fullchain.pem" ∈ fs <->
   CERT_PATH +:+ "/fullchain.pem" ∈ regular_files env) ->
  (CERT_PATH +:+ "/privkey.pem" ∈ fs <->
   CERT_PATH +:+ "/privkey.pem" ∈ regular_files env) ->
  certificate_check (with_fs fs ds env) s = certificate_check env s.
Proof.
  intros H1 H2 H3 H4. unfold certificate_check, test_d, test_f. cbn [dirs regular_files with_fs].
  rewrite (bool_decide_eq_true_2 _ H1), (bool_decide_eq_true_2 _ H2).
  rewrite (bool_decide_ext _ _ H3), (bool_decide_ext _ _ H4).
  reflexivity.
Qed.

Lemma certificate_check_results_bound :
  (1 <= length (results (added (certificate_check env) s)) <= 2)%nat.
Proof.
  unfold certificate_check, expiry_check.
  repeat match goal with
         | |- context [if ?b then _ else _] => destruct b eqn:?
         end;
    unfold added, seq, skip; cbv beta; repeat check_step; read_added; cbn; lia.
Qed.

End Certificates.

(** C5, the claim as stated fails: the local directory exists and holds
    both files, but the authority's directory exists too (without the
    private key); the check records a Fail, not a Pass. *)
Lemma local_certificates_do_not_pass :
  LOCAL_CERT_PATH ∈ dirs ca_incomplete_local_complete /\
  LOCAL_CERT_PATH +:+ "/fullchain.pem" ∈ regular_files ca_incomplete_local_complete /\
  LOCAL_CERT_PATH +:+ "/privkey.pem" ∈ regular_files ca_incomplete_local_complete /\
  results (added (certificate_check ca_incomplete_local_complete) (initial no_dist false)) =
    [(Fail, "SSL certificate files missing in " +:+ CERT_PATH)].
Proof.
  repeat split; try (apply path_in; vm_compute; reflexivity).
Qed.

(** C5 (as amended): without the authority's directory.  If the local
    directory is absent too, the check records exactly one Fail, and the
    certbot hint follows it when the script goes on after the Fail; the
    hint names the [certbot certonly] command.  If the local directory
    exists with both files, the check records exactly one Pass, and the
    expiry extraction plays no part in it. *)
Theorem certificate_check_without_authority env s :
  CERT_PATH ∉ dirs env ->
  (LOCAL_CERT_PATH ∉ dirs env ->
     results (added (certificate_check env) s) =
       [(Fail, "No SSL certificates found"%string)] /\
     tally (final (certificate_check env s)) =
       (PASSED s, wrap64 (FAILED s + 1), WARNINGS s) /\
     ((FAILED s =? 0) = false ->
      added (certificate_check env) s =
        [Result Fail "No SSL certificates found"; Echo certbot_hint])) /\
  (LOCAL_CERT_PATH ∈ dirs env ->
   LOCAL_CERT_PATH +:+ "/fullchain.pem" ∈ regular_files env ->
   LOCAL_CERT_PATH +:+ "/privkey.pem" ∈ regular_files env ->
     added (certificate_check env) s =
       [Result Pass "SSL certificates found in certs/"] /\
     tally (final (certificate_check env s)) =
       (wrap64 (PASSED s + 1), FAILED s, WARNINGS s) /\
     (forall installed enddate,
         certificate_check (with_openssl installed enddate env) s =
         certificate_check env s)) /\
  (exists pre post, certbot_hint = pre +:+ "certbot certonly" +:+ post).
Proof.
  intros Hca. repeat apply conj.
  - intros Hlocal. unfold added.
    rewrite certificate_check_no_directory by assumption.
    destruct (FAILED s =? 0); repeat split; try discriminate;
      cbn; rewrite <- ?app_assoc, drop_app_length; reflexivity.
  - intros Hd Hf Hk. unfold added. rewrite certificate_check_local by assumption.
    repeat split.
    + apply added_check_pass.
    + now rewrite final_check_pass.
    + intros installed enddate. now rewrite !certificate_check_local.
  - now exists "   Run: sudo "%string, " --standalone -d vladplk.mysmarttech.fr"%string.
Qed.

Lemma certificate_check_without_authority_witness :
  added (certificate_check sample_host) (warm no_dist false) =
    [Result Fail "No SSL certificates found"; Echo certbot_hint] /\
  added (certificate_check local_certificates) (initial no_dist false) =
    [Result Pass "SSL certificates found in certs/"].
Proof.
  split.
  - apply (certificate_check_without_authority sample_host (warm no_dist false)).
    + apply path_not_in. vm_compute. reflexivity.
    + apply path_not_in. vm_compute. reflexivity.
    + reflexivity.
  - apply (certificate_check_without_authority local_certificates (initial no_dist false)).
    + apply path_not_in. vm_compute. reflexivity.
    + apply path_in. vm_compute. reflexivity.
    + apply path_in. vm_compute. reflexivity.
    + apply path_in. vm_compute. reflexivity.
Defined.

(** C10: once the authority's directory exists, the outcome of the
    certificate check depends on no other path, so the local directory
    and its files are never consulted; and when [fullchain.pem] or
    [privkey.pem] is missing there the check records exactly one Fail,
    whatever the local directory holds. *)
Theorem authority_directory_takes_precedence env s :
  CERT_PATH ∈ dirs env ->
  (forall fs ds,
      CERT_PATH ∈ ds ->
      (CERT_PATH +:+ "/fullchain.pem" ∈ fs <->
       CERT_PATH +:+ "/fullchain.pem" ∈ regular_files env) ->
      (CERT_PATH +:+ "/privkey.pem" ∈ fs <->
       CERT_PATH +:+ "/privkey.pem" ∈ regular_files env) ->
      certificate_check (with_fs fs ds env) s = certificate_check env s) /\
  (CERT_PATH +:+ "/fullchain.pem" ∉ regular_files env \/
   CERT_PATH +:+ "/privkey.pem" ∉ regular_files env ->
   added (certificate_check env) s =
     [Result Fail ("SSL certificate files missing in " +:+ CERT_PATH)] /\
   tally (final (certificate_check env s)) =
     (PASSED s, wrap64 (FAILED s + 1), WARNINGS s)).
Proof.
  intros Hca. split.
  - intros fs ds. now apply certificate_check_authority_only.
  - intros Hmissing. unfold added.
    rewrite certificate_check_incomplete by assumption. split.
    + apply added_check_fail.
    + now rewrite final_check_fail.
Qed.

Lemma authority_directory_takes_precedence_witness :
  added (certificate_check ca_incomplete_local_complete) (initial no_dist false) =
    [Result Fail ("SSL certificate files missing in " +:+ CERT_PATH)] /\
  tally (final (certificate_check ca_incomplete_local_complete (initial no_dist false))) =
    (0, wrap64 1, 0).
Proof.
  apply (authority_directory_takes_precedence ca_incomplete_local_complete
           (initial no_dist false)).
  - apply path_in. vm_compute. reflexivity.
  - right. apply path_not_in. vm_compute. reflexivity.
Defined.

(** ** Results per check *)

Lemma proxy_pass_heuristic_results_bound env s :
  (length (results (added (proxy_pass_heuristic env) s)) <= 1)%nat.
Proof.
  unfold proxy_pass_heuristic, if_grep.
  destruct (grep_q env "proxy_pass" "nginx.conf" =? 0).
  - rewrite added_check_warn. cbn. lia.
  - rewrite added_skip. cbn. lia.
Qed.

Lemma docker_build_check_results_bound env s :
  (1 <= length (results (added (docker_build_check env) s)) <= 2)%nat.
Proof.
  unfold docker_build_check, docker_rmi_or_true.
  destruct (docker_build env =? 0).
  - unfold added, seq, errexit; cbv beta iota. check_step; cbn [final].
    + read_added. cbn. lia.
    + destruct (fst (docker_images env) =? 0); cbv beta iota.
      * check_step; cbv beta iota; destruct (docker_rmi env =? 0);
          read_added; cbn; lia.
      * read_added. cbn. lia.
  - rewrite added_check_fail. cbn. lia.
Qed.

Lemma production_build_results_bound env s :
  (1 <= length (results (added (production_build env) s)) <= 3)%nat.
Proof.
  unfold added, production_build, dist_checks, index_html_check.
  destruct (npm_run_build env (dist s)) as [status d].
  destruct (status =? 0); unfold seq, skip; cbv beta.
  - check_step; cbn [dist set_dist after_pass set_PASSED print].
    + read_added. cbn. lia.
    + destruct (dist_dir d).
      * check_step; cbn [dist set_dist after_pass set_PASSED print];
          [read_added; cbn; lia|].
        destruct (dist_index_html d); check_step; read_added; cbn; lia.
      * read_added. cbn. lia.
  - check_step; read_added; cbn; lia.
Qed.



(** ** Required files *)

(** C6 does not hold of the script.  The project directory of
    [sample_host] holds exactly [Dockerfile] and [package.json] of the
    five required files.  From the script's initial counters the section
    prints the Pass for [Dockerfile] and ends the script with status 1:
    one Pass and no Fail, the other four files never looked at.  In a
    whole run the section is not reached at all. *)
Theorem required_files_end_at_first_result :
  regular_files sample_host ∩ list_to_set files = {[ "Dockerfile"; "package.json" ]} /\
  exit_code (required_files sample_host (initial no_dist false)) = 1 /\
  results (added (required_files sample_host) (initial no_dist false)) =
    [(Pass, "Dockerfile exists"%string)] /\
  results (stdout (final (run sample_host no_dist false))) =
    [(Pass, "Docker is installed (24.0.7)"%string)].
Proof.
  split; [|repeat split].
  apply set_eq. intros x. unfold files. cbn. set_solver.
Qed.

(** A [check_pass], [check_fail] or [check_warn] whose counter is neither
    0 nor about to wrap lets the script go on. *)
Ltac unwrap :=
  repeat match goal with
         | |- context [wrap64 ?z] => rewrite (wrap64_small z) by lia
         end.

Ltac counting_step :=
  match goal with
  | |- context [check_pass ?m ?s] =>
      rewrite (check_pass_eq m s);
      replace (PASSED s =? 0) with false
        by (symmetry; apply Z.eqb_neq; cbn; unwrap; lia)
  | |- context [check_fail ?m ?s] =>
      rewrite (check_fail_eq m s);
      replace (FAILED s =? 0) with false
        by (symmetry; apply Z.eqb_neq; cbn; unwrap; lia)
  | |- context [check_warn ?m ?s] =>
      rewrite (check_warn_eq m s);
      replace (WARNINGS s =? 0) with false
        by (symmetry; apply Z.eqb_neq; cbn; unwrap; lia)
  end.

Section RequiredFiles.

Variable env : Env.
Variable s : State.

Hypothesis only_two :
  regular_files env ∩ list_to_set files = {[ "Dockerfile"; "package.json" ]}.
Hypothesis passed_counting : 0 < PASSED s < 2 ^ 62.
Hypothesis failed_counting : 0 < FAILED s < 2 ^ 62.

Lemma required_present file :
  file ∈ ({[ "Dockerfile"; "package.json" ]} : gset string) -> test_f env file = true.
Proof.
  intros H. apply test_f_true. rewrite <- only_two in H.
  now apply elem_of_intersection in H.
Qed.

Lemma required_absent file :
  file ∈ files -> file ∉ ({[ "Dockerfile"; "package.json" ]} : gset string) ->
  test_f env file = false.
Proof.
  intros Hr H. apply test_f_false. rewrite <- only_two in H.
  intros Hf. apply H. apply elem_of_intersection. split; [exact Hf|].
  now apply elem_of_list_to_set.
Qed.

(** X2: with both counters already counting, the section reports the
    five files: two Pass, three Fail, and the script goes on. *)
Lemma required_files_two_of_five :
  is_running (required_files env s) = true /\
  added (required_files env) s =
    [Header "2. Required Files";
     Result Pass "Dockerfile exists";
     Result Fail "nginx.conf is missing";
     Result Pass "package.json exists";
     Result Fail "vite.config.js is missing";
     Result Fail ".dockerignore is missing"] /\
  tally (final (required_files env s)) = (PASSED s + 2, FAILED s + 3, WARNINGS s).
Proof.
  unfold added, required_files, files, print_header, required_file_check.
  cbn [for_each].
  rewrite (required_present "Dockerfile"), (required_present "package.json")
    by (apply path_in; vm_compute; reflexivity).
  rewrite (required_absent "nginx.conf"), (required_absent "vite.config.js"),
    (required_absent ".dockerignore")
    by (first [ apply path_not_in; vm_compute; reflexivity
              | apply list_elem_of_In; cbn; tauto ]).
  unfold seq, echo, skip.
  repeat (counting_step; cbv beta iota).
  cbn. rewrite <- !app_assoc, drop_app_length.
  split; [reflexivity|]. split; [reflexivity|].
  unfold tally, after_pass, after_fail. cbn.
  unwrap. apply f_equal2; [apply f_equal2|]; lia.
Qed.

End RequiredFiles.

Lemma required_files_two_of_five_witness :
  is_running (required_files sample_host (warm no_dist false)) = true /\
  tally (final (required_files sample_host (warm no_dist false))) = (3, 4, 1).
Proof.
  assert (H : regular_files sample_host ∩ list_to_set files =
              {[ "Dockerfile"; "package.json" ]})
    by (apply set_eq; intros x; unfold files; cbn; set_solver).
  destruct (required_files_two_of_five sample_host (warm no_dist false) H)
    as (Hr & _ & Ht); cbn; try lia.
  split; [exact Hr | exact Ht].
Defined.

(** ** The container build and its throwaway image *)

(** C9, the claim as stated fails: the build succeeds, [docker rmi]
    fails, [|| true] hides the failure, and the check completes with the
    image still present. *)
Lemma test_image_left_behind :
  is_running
    (docker_build_check (with_docker_rmi 1 sample_host) (warm no_dist false)) = true /\
  test_image
    (final (docker_build_check (with_docker_rmi 1 sample_host) (warm no_dist false))) = true.
Proof. split; reflexivity. Qed.

Section ContainerBuild.

Variable env : Env.
Variable s : State.

(** The status of [docker rmi] shows in nothing but the image. *)
Lemma docker_rmi_status_hidden status :
  same_report (final (docker_build_check (with_docker_rmi status env) s))
              (final (docker_build_check env s)) /\
  exit_code (docker_build_check (with_docker_rmi status env) s) =
    exit_code (docker_build_check env s) /\
  is_running (docker_build_check (with_docker_rmi status env) s) =
    is_running (docker_build_check env s).
Proof.
  unfold docker_build_check, docker_rmi_or_true, same_report.
  cbn [docker_build docker_images docker_rmi with_docker_rmi].
  destruct (docker_build env =? 0); [|repeat split].
  unfold seq, errexit; cbv beta iota.
  check_step; [repeat split|].
  destruct (fst (docker_images env) =? 0); [|repeat split].
  cbv beta iota. check_step; [repeat split|].
  destruct (status =? 0), (docker_rmi env =? 0); repeat split.
Qed.

(** A build that succeeds and a removal that succeeds leave no image. *)
Lemma docker_build_check_cleans_up :
  docker_build env = 0 -> fst (docker_images env) = 0 -> docker_rmi env = 0 ->
  0 < PASSED s < 2 ^ 62 ->
  is_running (docker_build_check env s) = true /\
  test_image (final (docker_build_check env s)) = false.
Proof.
  intros Hb Hi Hr Hp. unfold docker_build_check, docker_rmi_or_true.
  rewrite Hb, Hi, Hr. cbn [Z.eqb]. unfold seq, errexit. cbv beta iota. cbn [Z.eqb].
  repeat (counting_step; cbv beta iota). split; reflexivity.
Qed.

(** A build that fails leaves the image as it was. *)
Lemma docker_build_check_failed_build :
  (docker_build env =? 0) = false ->
  test_image (final (docker_build_check env s)) = test_image s.
Proof.
  intros Hb. unfold docker_build_check. rewrite Hb. now rewrite final_check_fail.
Qed.

End ContainerBuild.

(** C9 (as amended): deleting the test image is best effort.  Whether
    [docker rmi] succeeds or fails changes neither the RunTally nor the
    report nor the exit status of the container-build check.  The image
    is gone after the check when the build succeeded, the script went on
    to the cleanup and [docker rmi] succeeded; a failed build leaves the
    image as the check found it. *)
Theorem test_image_removed_best_effort env s :
  (forall status,
      same_report (final (docker_build_check (with_docker_rmi status env) s))
                  (final (docker_build_check env s)) /\
      exit_code (docker_build_check (with_docker_rmi status env) s) =
        exit_code (docker_build_check env s)) /\
  (docker_build env = 0 -> fst (docker_images env) = 0 -> docker_rmi env = 0 ->
   0 < PASSED s < 2 ^ 62 ->
   is_running (docker_build_check env s) = true /\
   test_image (final (docker_build_check env s)) = false) /\
  ((docker_build env =? 0) = false ->
   test_image (final (docker_build_check env s)) = test_image s).
Proof.
  repeat apply conj.
  - intros status. destruct (docker_rmi_status_hidden env s status) as (H1 & H2 & _).
    now split.
  - apply docker_build_check_cleans_up.
  - apply docker_build_check_failed_build.
Qed.

Lemma test_image_removed_best_effort_witness :
  is_running (docker_build_check sample_host (warm no_dist true)) = true /\
  test_image (final (docker_build_check sample_host (warm no_dist true))) = false.
Proof.
  apply (test_image_removed_best_effort sample_host (warm no_dist true));
    cbn; first [reflexivity | lia].
Defined.

(** ** grep: the matcher and the words of a pattern *)

Section Matcher.

Variable env : Env.

Lemma string_app_assoc (a b c : string) : (a +:+ b) +:+ c = a +:+ b +:+ c.
Proof.
  induction a as [|x a IH]; [reflexivity|].
  change (String x ((a +:+ b) +:+ c) = String x (a +:+ b +:+ c)). now rewrite IH.
Qed.

Lemma string_app_nil_r (a : string) : a +:+ "" = a.
Proof.
  induction a as [|x a IH]; [reflexivity|].
  change (String x (a +:+ "") = String x a). now rewrite IH.
Qed.

Lemma string_length_app (a b : string) :
  String.length (a +:+ b) = (String.length a + String.length b)%nat.
Proof.
  induction a as [|x a IH]; [reflexivity|].
  change (S (String.length (a +:+ b)) = S (String.length a + String.length b)).
  now rewrite IH.
Qed.

Lemma character_nonempty ch : character env ch = true -> ch <> ""%string.
Proof. now destruct ch. Qed.

Lemma atom_word_nonempty a ch : atom_word env a ch -> ch <> ""%string.
Proof. destruct a; cbn; [now intros ->|apply character_nonempty]. Qed.

(** One character at the start of a text. *)
Lemma after_character_spec s : forall pre rest,
  In rest (after_character env pre s) <->
  exists ch, ch <> ""%string /\ s = ch +:+ rest /\ character env (pre +:+ ch) = true.
Proof.
  induction s as [|c s IH]; intros pre rest; cbn [after_character].
  - split; [intros []|]. intros (ch & Hne & Hs & _). now destruct ch.
  - cbv zeta. rewrite in_app_iff, IH. split.
    + intros [H|(ch & Hne & -> & Hc)].
      * destruct (character env (pre +:+ String c "")) eqn:E; [|destruct H].
        destruct H as [->|[]]. exists (String c ""). now repeat split.
      * exists (String c ch). repeat split; [discriminate|].
        now rewrite string_app_assoc in Hc.
    + intros (ch & Hne & Hs & Hc). destruct ch as [|d ch]; [contradiction|].
      change (String d ch +:+ rest) with (String d (ch +:+ rest)) in Hs.
      injection Hs as <- ->. destruct ch as [|e ch].
      * left. rewrite Hc. now left.
      * right. exists (String e ch). repeat split; [discriminate|].
        now rewrite string_app_assoc.
Qed.

(** One match of an atom at the start of a text. *)
Lemma after_atom_spec a s rest :
  In rest (after_atom env a s) <-> exists ch, atom_word env a ch /\ s = ch +:+ rest.
Proof.
  destruct a as [d|]; cbn [after_atom atom_word].
  - destruct s as [|c s].
    + split; [intros []|]. now intros (ch & -> & Hs).
    + destruct (Ascii.eqb c d) eqn:E.
      * apply Ascii.eqb_eq in E as ->. split.
        -- intros [->|[]]. now exists (String d "").
        -- intros (ch & -> & Hs). injection Hs as ->. now left.
      * apply Ascii.eqb_neq in E. split; [intros []|].
        intros (ch & -> & Hs). injection Hs as Hc _. now destruct E.
  - rewrite after_character_spec. split.
    + intros (ch & _ & Hs & Hc). now exists ch.
    + intros (ch & Hc & Hs). exists ch. repeat split; auto. now apply character_nonempty.
Qed.

Lemma after_atom_shorter a s rest :
  In rest (after_atom env a s) -> (String.length rest < String.length s)%nat.
Proof.
  intros H. apply after_atom_spec in H as (ch & Hw & ->).
  apply atom_word_nonempty in Hw. rewrite string_length_app.
  destruct ch; [contradiction|cbn; lia].
Qed.

(** Any number of matches of an atom at the start of a text. *)
Lemma after_star_sound a fuel : forall s rest,
  In rest (after_star env a fuel s) -> exists w, atoms env a w /\ s = w +:+ rest.
Proof.
  induction fuel as [|fuel IH]; intros s rest; cbn [after_star].
  - intros [->|[]]. exists ""%string. split; [constructor|reflexivity].
  - intros [->|H]; [exists ""%string; split; [constructor|reflexivity]|].
    apply in_flat_map in H as (mid & Hmid & H).
    apply after_atom_spec in Hmid as (ch & Hch & ->).
    apply IH in H as (w & Hw & ->).
    exists (ch +:+ w). split; [now constructor|now rewrite string_app_assoc].
Qed.

Lemma after_star_complete a w :
  atoms env a w ->
  forall fuel rest, (String.length (w +:+ rest) <= fuel)%nat ->
                    In rest (after_star env a fuel (w +:+ rest)).
Proof.
  induction 1 as [|ch w Hch _ IH]; intros fuel rest Hfuel.
  - destruct fuel; now left.
  - rewrite string_app_assoc in *.
    assert (In (w +:+ rest) (after_atom env a (ch +:+ w +:+ rest))) as Hin
      by (apply after_atom_spec; now exists ch).
    pose proof (after_atom_shorter _ _ _ Hin) as Hlt.
    destruct fuel as [|fuel]; [lia|]. cbn [after_star]. right.
    apply in_flat_map. exists (w +:+ rest). split; [exact Hin|]. apply IH. lia.
Qed.

(** The words of [a*p]: texts of [a], then a word of [p]. *)
Lemma bre_matches_star a p w m :
  atoms env a w -> bre_matches env p m -> bre_matches env (Star a :: p) (w +:+ m).
Proof.
  intros Hw Hm. induction Hw as [|ch w Hch _ IH].
  - now apply bre_star_skip.
  - rewrite string_app_assoc. now apply bre_star_step.
Qed.

Lemma bre_matches_star_inv a p m :
  bre_matches env (Star a :: p) m ->
  exists w m', m = w +:+ m' /\ atoms env a w /\ bre_matches env p m'.
Proof.
  remember (Star a :: p) as q eqn:Hq.
  induction 1 as [| |b q s Hm _|b q ch s Hch Hm IH]; try discriminate.
  - injection Hq as -> ->. exists ""%string, s. repeat split; [constructor|exact Hm].
  - destruct (IH Hq) as (w & m' & -> & Hw & Hm'). injection Hq as -> ->.
    exists (ch +:+ w), m'. repeat split; [now rewrite string_app_assoc|now constructor|exact Hm'].
Qed.

Lemma bre_matches_one_inv a p m :
  bre_matches env (One a :: p) m ->
  exists ch m', m = ch +:+ m' /\ atom_word env a ch /\ bre_matches env p m'.
Proof. intros H. inversion H; subst. now eexists _, _. Qed.

(** [match_here] finds exactly the prefixes that are words of the pattern. *)
Lemma match_here_iff p : forall s,
  match_here env p s = true <->
  exists m rest, s = m +:+ rest /\ bre_matches env p m.
Proof.
  induction p as [|[a|a] p IH]; intros s; cbn [match_here].
  - split; [intros _|reflexivity]. exists ""%string, s. split; [reflexivity|constructor].
  - rewrite existsb_exists. split.
    + intros (mid & Hmid & H). apply after_atom_spec in Hmid as (ch & Hch & ->).
      apply IH in H as (m & rest & -> & Hm).
      exists (ch +:+ m), rest. split; [now rewrite string_app_assoc|now constructor].
    + intros (m & rest & -> & Hm).
      apply bre_matches_one_inv in Hm as (ch & m' & -> & Hch & Hm').
      exists (m' +:+ rest). split.
      * apply after_atom_spec. exists ch. split; [exact Hch|apply string_app_assoc].
      * apply IH. now exists m', rest.
  - rewrite existsb_exists. split.
    + intros (mid & Hmid & H). apply after_star_sound in Hmid as (w & Hw & ->).
      apply IH in H as (m & rest & -> & Hm).
      exists (w +:+ m), rest. split; [now rewrite string_app_assoc|].
      now apply bre_matches_star.
    + intros (m & rest & -> & Hm).
      apply bre_matches_star_inv in Hm as (w & m' & -> & Hw & Hm').
      exists (m' +:+ rest). split.
      * rewrite string_app_assoc. now apply after_star_complete.
      * apply IH. now exists m', rest.
Qed.

Lemma bre_search_cons p c s :
  bre_search env p (String c s) = match_here env p (String c s) || bre_search env p s.
Proof. reflexivity. Qed.

Lemma bre_search_skip p pre s :
  bre_search env p s = true -> bre_search env p (pre +:+ s) = true.
Proof.
  intros H. induction pre as [|c pre IH]; [exact H|].
  change (String c pre +:+ s) with (String c (pre +:+ s)).
  now rewrite bre_search_cons, IH, orb_true_r.
Qed.

(** [bre_search] finds exactly the lines that contain a word of the
    pattern. *)
Lemma bre_search_iff p : forall s,
  bre_search env p s = true <->
  exists pre m post, s = pre +:+ m +:+ post /\ bre_matches env p m.
Proof.
  intros s. split.
  - induction s as [|c s IH]; [cbn [bre_search]; rewrite orb_false_r|rewrite bre_search_cons];
      intros H.
    + apply match_here_iff in H as (m & rest & Heq & Hm). now exists ""%string, m, rest.
    + apply orb_true_iff in H as [H|H].
      * apply match_here_iff in H as (m & rest & Heq & Hm). now exists ""%string, m, rest.
      * destruct (IH H) as (pre & m & post & -> & Hm). now exists (String c pre), m, post.
  - intros (pre & m & post & -> & Hm). apply bre_search_skip.
    assert (match_here env p (m +:+ post) = true) as H
      by (apply match_here_iff; now exists m, post).
    destruct (m +:+ post); [cbn [bre_search]|rewrite bre_search_cons]; now rewrite H.
Qed.

(** The words of a pattern, piece by piece. *)
Lemma bre_matches_nil m : bre_matches env [] m <-> m = ""%string.
Proof. split; [now inversion 1|intros ->; constructor]. Qed.

Lemma bre_matches_literal w p m :
  bre_matches env (literal w ++ p) m <->
  exists m', m = w +:+ m' /\ bre_matches env p m'.
Proof.
  revert m. induction w as [|c w IH]; intros m; cbn [literal app].
  - split; [intros H; now exists m|now intros (m' & -> & H)].
  - split.
    + intros H. apply bre_matches_one_inv in H as (ch & m1 & -> & Hch & H).
      cbn in Hch. subst ch. apply IH in H as (m' & -> & H). now exists m'.
    + intros (m' & -> & H). apply (bre_one env (Lit c) _ (String c "")); [reflexivity|].
      apply IH. now exists m'.
Qed.

Lemma bre_matches_any p m :
  bre_matches env (One Any :: p) m <->
  exists ch m', m = ch +:+ m' /\ character env ch = true /\ bre_matches env p m'.
Proof.
  split; [apply bre_matches_one_inv|]. intros (ch & m' & -> & Hch & H). now constructor.
Qed.

Lemma bre_matches_any_star p m :
  bre_matches env (Star Any :: p) m <->
  exists w m', m = w +:+ m' /\ characters env w /\ bre_matches env p m'.
Proof.
  split; [apply bre_matches_star_inv|]. intros (w & m' & -> & Hw & H).
  now apply bre_matches_star.
Qed.

(** Text below 128 is a sequence of characters in every locale. *)
Lemma character_byte c : Nat.ltb (nat_of_ascii c) 128 = true -> character env (String c "") = true.
Proof. intros H. cbn [character]. now rewrite H. Qed.

Lemma characters_ascii w : ascii_text w = true -> characters env w.
Proof.
  induction w as [|c w IH]; cbn [ascii_text]; intros H; [constructor|].
  apply andb_true_iff in H as [Hc Hw].
  apply (atoms_cons env Any (String c "") w); [now apply character_byte|now apply IH].
Qed.

(** The words of the fallback pattern of line 126. *)
Lemma spa_pattern_words m :
  bre_matches env (bre_of_string "try_files.*index.html") m <->
  exists mid ch,
    m = "try_files" +:+ mid +:+ "index" +:+ ch +:+ "html" /\
    characters env mid /\ character env ch = true.
Proof.
  change (bre_of_string "try_files.*index.html")
    with (literal "try_files" ++ Star Any :: (literal "index" ++ One Any :: (literal "html" ++ []))).
  split.
  - intros H. apply bre_matches_literal in H as (m1 & -> & H).
    apply bre_matches_any_star in H as (mid & m2 & -> & Hmid & H).
    apply bre_matches_literal in H as (m3 & -> & H).
    apply bre_matches_any in H as (ch & m4 & -> & Hch & H).
    apply bre_matches_literal in H as (m5 & -> & H).
    apply bre_matches_nil in H as ->. now exists mid, ch.
  - intros (mid & ch & -> & Hmid & Hch).
    apply bre_matches_literal. eexists. split; [reflexivity|].
    apply bre_matches_any_star. exists mid. eexists. repeat split; [exact Hmid|].
    apply bre_matches_literal. eexists. split; [reflexivity|].
    apply bre_matches_any. exists ch. eexists. repeat split; [exact Hch|].
    apply bre_matches_literal. exists ""%string. split; [reflexivity|constructor].
Qed.

(** The words of the pattern of line 194. *)
Lemma ssl_pattern_words m :
  bre_matches env (bre_of_string "ssl_protocols TLSv1.2 TLSv1.3") m <->
  exists c1 c2,
    m = "ssl_protocols TLSv1" +:+ c1 +:+ "2 TLSv1" +:+ c2 +:+ "3" /\
    character env c1 = true /\ character env c2 = true.
Proof.
  change (bre_of_string "ssl_protocols TLSv1.2 TLSv1.3")
    with (literal "ssl_protocols TLSv1" ++ One Any ::
            (literal "2 TLSv1" ++ One Any :: (literal "3" ++ []))).
  split.
  - intros H. apply bre_matches_literal in H as (m1 & -> & H).
    apply bre_matches_any in H as (c1 & m2 & -> & Hc1 & H).
    apply bre_matches_literal in H as (m3 & -> & H).
    apply bre_matches_any in H as (c2 & m4 & -> & Hc2 & H).
    apply bre_matches_literal in H as (m5 & -> & H).
    apply bre_matches_nil in H as ->. now exists c1, c2.
  - intros (c1 & c2 & -> & Hc1 & Hc2).
    apply bre_matches_literal. eexists. split; [reflexivity|].
    apply bre_matches_any. exists c1. eexists. repeat split; [exact Hc1|].
    apply bre_matches_literal. eexists. split; [reflexivity|].
    apply bre_matches_any. exists c2. eexists. repeat split; [exact Hc2|].
    apply bre_matches_literal. exists ""%string. split; [reflexivity|constructor].
Qed.

(** A pattern without operators and dots is literal text. *)
Lemma bre_of_string_cons c p :
  operator_free p = true ->
  bre_of_string (String c p) = One (atom_of c) :: bre_of_string p.
Proof.
  destruct p as [|d rest]; [reflexivity|]. cbn [operator_free]. intros H.
  cbn [bre_of_string]. unfold bre_operator in H. cbn [existsb] in H.
  destruct (Ascii.eqb d "*"); [discriminate H|reflexivity].
Qed.

Lemma bre_of_string_plain p :
  operator_free p = true -> dot_free p = true -> bre_of_string p = literal p.
Proof.
  induction p as [|c p IH]; [reflexivity|]. cbn [operator_free dot_free]. intros Ho Hd.
  apply andb_true_iff in Ho as [_ Ho]. apply andb_true_iff in Hd as [Hc Hd].
  apply negb_true_iff in Hc. rewrite (bre_of_string_cons c p Ho), (IH Ho Hd).
  unfold atom_of. now rewrite Hc.
Qed.

Lemma bre_matches_plain p m :
  operator_free p = true -> dot_free p = true ->
  bre_matches env (bre_of_string p) m <-> m = p.
Proof.
  intros Ho Hd. rewrite (bre_of_string_plain p Ho Hd), <- (app_nil_r (literal p)).
  rewrite bre_matches_literal. split.
  - intros (m' & -> & H). apply bre_matches_nil in H as ->. apply string_app_nil_r.
  - intros ->. exists ""%string. split; [now rewrite string_app_nil_r|constructor].
Qed.

(** ** What [grep -q] returns *)

Lemma grep_q_zero p file :
  grep_q env p file = 0 <->
  exists ls, contents env !! file = Some ls /\
             exists l, l ∈ ls /\ bre_search env (bre_of_string p) l = true.
Proof.
  unfold grep_q. destruct (contents env !! file) as [ls|].
  - destruct (existsb _ ls) eqn:E.
    + split; [intros _|reflexivity]. exists ls. split; [reflexivity|].
      apply existsb_exists in E as (l & Hl & Hm). exists l. split; [|exact Hm].
      now apply list_elem_of_In.
    + split; [discriminate|]. intros (ls' & [= <-] & l & Hl & Hm).
      assert (existsb (bre_search env (bre_of_string p)) ls = true) as E'.
      { apply existsb_exists. exists l. split; [|exact Hm]. now apply list_elem_of_In. }
      congruence.
  - split; [discriminate|]. intros (ls & [=] & _).
Qed.

Lemma grep_q_plain p file :
  operator_free p = true -> dot_free p = true ->
  grep_q env p file = 0 <->
  exists ls, contents env !! file = Some ls /\ occurs_in p ls.
Proof.
  intros Hp Hd. rewrite grep_q_zero.
  split; intros (ls & Hls & H); exists ls; (split; [exact Hls|]).
  - destruct H as (l & Hl & Hm).
    apply bre_search_iff in Hm as (pre & m & post & -> & Hm).
    apply (bre_matches_plain p m Hp Hd) in Hm as ->. now exists pre, post.
  - destruct H as (pre & post & Hl). eexists. split; [exact Hl|].
    apply bre_search_iff. exists pre, p, post. split; [reflexivity|].
    now apply bre_matches_plain.
Qed.

Lemma grep_q_spa_fallback :
  grep_q env "try_files.*index.html" "nginx.conf" = 0 <->
  exists ls, contents env !! "nginx.conf" = Some ls /\
             exists l, l ∈ ls /\ looks_like_spa_fallback env l.
Proof.
  rewrite grep_q_zero.
  split; intros (ls & Hls & l & Hl & H); exists ls; (split; [exact Hls|]); exists l;
    (split; [exact Hl|]).
  - apply bre_search_iff in H as (pre & m & post & -> & Hm).
    apply spa_pattern_words in Hm as (mid & ch & -> & Hmid & Hch).
    exists pre, mid, ch, post. repeat split; auto. now rewrite !string_app_assoc.
  - destruct H as (pre & mid & ch & post & -> & Hmid & Hch).
    apply bre_search_iff.
    exists pre, ("try_files" +:+ mid +:+ "index" +:+ ch +:+ "html")%string, post.
    split; [now rewrite !string_app_assoc|]. apply spa_pattern_words. now exists mid, ch.
Qed.

Lemma grep_q_modern_ssl :
  grep_q env "ssl_protocols TLSv1.2 TLSv1.3" "nginx.conf" = 0 <->
  exists ls, contents env !! "nginx.conf" = Some ls /\
             exists l, l ∈ ls /\ looks_like_modern_ssl env l.
Proof.
  rewrite grep_q_zero.
  split; intros (ls & Hls & l & Hl & H); exists ls; (split; [exact Hls|]); exists l;
    (split; [exact Hl|]).
  - apply bre_search_iff in H as (pre & m & post & -> & Hm).
    apply ssl_pattern_words in Hm as (c1 & c2 & -> & Hc1 & Hc2).
    exists pre, c1, c2, post. repeat split; auto. now rewrite !string_app_assoc.
  - destruct H as (pre & c1 & c2 & post & -> & Hc1 & Hc2).
    apply bre_search_iff.
    exists pre, ("ssl_protocols TLSv1" +:+ c1 +:+ "2 TLSv1" +:+ c2 +:+ "3")%string, post.
    split; [now rewrite !string_app_assoc|]. apply ssl_pattern_words. now exists c1, c2.
Qed.

End Matcher.

(** ** The content heuristics on nginx.conf *)

Section NginxHeuristics.

Variable env : Env.

Lemma if_grep_found pattern file c1 c2 s :
  grep_q env pattern file = 0 -> if_grep env pattern file c1 c2 s = c1 s.
Proof. intros H. unfold if_grep. now rewrite H. Qed.

Lemma if_grep_not_found pattern file c1 c2 s :
  grep_q env pattern file <> 0 -> if_grep env pattern file c1 c2 s = c2 s.
Proof. intros H. unfold if_grep. apply Z.eqb_neq in H. now rewrite H. Qed.

Lemma grep_q_finds_spa_fallback :
  grep_q env "try_files.*index.html" "nginx.conf" = 0 <-> finds_spa_fallback env.
Proof. apply grep_q_spa_fallback. Qed.

(** The directive of the specification looks like the fallback. *)
Lemma directive_looks_like pre post :
  looks_like_spa_fallback env (pre +:+ "try_files $uri $uri/ /index.html;" +:+ post).
Proof.
  exists pre, " $uri $uri/ /"%string, "."%string, (";" +:+ post)%string.
  split; [|split; [now apply characters_ascii|now apply character_byte]].
  reflexivity.
Qed.

(** A line that looks like the fallback mentions [try_files]. *)
Lemma looks_like_mentions l ls :
  l ∈ ls -> looks_like_spa_fallback env l -> occurs_in "try_files" ls.
Proof.
  intros Hl (pre & mid & ch & post & -> & _).
  exists pre, (mid +:+ "index" +:+ ch +:+ "html" +:+ post)%string. exact Hl.
Qed.

Lemma spa_fallback_pass s :
  finds_spa_fallback env ->
  spa_fallback_heuristic env s = check_pass "SPA fallback routing configured" s.
Proof.
  intros H. unfold spa_fallback_heuristic. apply if_grep_found.
  now apply grep_q_finds_spa_fallback.
Qed.

Lemma spa_fallback_warn s :
  ~ finds_spa_fallback env ->
  spa_fallback_heuristic env s =
    check_warn "SPA fallback routing may not be configured" s.
Proof.
  intros H. unfold spa_fallback_heuristic. apply if_grep_not_found.
  intros E. now apply H, grep_q_finds_spa_fallback.
Qed.

Lemma finds_spa_fallback_dec : finds_spa_fallback env \/ ~ finds_spa_fallback env.
Proof.
  destruct (Z.eq_dec (grep_q env "try_files.*index.html" "nginx.conf") 0) as [E|E].
  - left. now apply grep_q_finds_spa_fallback.
  - right. intros H. now apply E, grep_q_finds_spa_fallback.
Qed.

Lemma proxy_pass_found ls s :
  contents env !! "nginx.conf" = Some ls ->
  occurs_in "proxy_pass http://frontend:3000;" ls ->
  proxy_pass_heuristic env s =
    check_warn "nginx.conf contains proxy_pass (should serve static files)" s.
Proof.
  intros Hls (pre & post & Hl). unfold proxy_pass_heuristic. apply if_grep_found.
  apply grep_q_plain; [reflexivity..|]. exists ls. split; [exact Hls|].
  exists pre, (" http://frontend:3000;" +:+ post)%string. exact Hl.
Qed.

End NginxHeuristics.

(** Whether a literal text occurs in given lines is settled by
    evaluation. *)
Lemma not_occurs_in p ls :
  operator_free p = true -> dot_free p = true ->
  existsb (bre_search sample_host (bre_of_string p)) ls = false ->
  ~ occurs_in p ls.
Proof.
  intros Ho Hd E (pre & post & Hl).
  assert (existsb (bre_search sample_host (bre_of_string p)) ls = true) as E'; [|congruence].
  apply existsb_exists. eexists. split; [apply list_elem_of_In, Hl|].
  apply bre_search_iff. exists pre, p, post. split; [reflexivity|].
  now apply bre_matches_plain.
Qed.

(** X4: the fallback heuristic of lines 126-130, exactly.  It records
    the Pass "SPA fallback routing configured", and counts it, exactly
    when [nginx.conf] can be read and one of its lines has [try_files]
    followed later on the line by [index], one character of the locale
    and [html]; it records and counts the Warn "SPA fallback routing may
    not be configured" exactly otherwise, also when [nginx.conf] cannot
    be read.  It prints nothing else. *)
Theorem spa_fallback_heuristic_exact env s :
  (added (spa_fallback_heuristic env) s = [Result Pass "SPA fallback routing configured"] <->
   finds_spa_fallback env) /\
  (added (spa_fallback_heuristic env) s =
     [Result Warn "SPA fallback routing may not be configured"] <->
   ~ finds_spa_fallback env) /\
  (finds_spa_fallback env ->
   final (spa_fallback_heuristic env s) = after_pass "SPA fallback routing configured" s) /\
  (~ finds_spa_fallback env ->
   final (spa_fallback_heuristic env s) =
     after_warn "SPA fallback routing may not be configured" s).
Proof.
  destruct (finds_spa_fallback_dec env) as [H|H].
  - unfold added. rewrite (spa_fallback_pass env s H), final_check_pass.
    repeat split; try tauto; try discriminate.
    + cbn. now rewrite drop_app_length.
    + cbn. rewrite drop_app_length. discriminate.
  - unfold added. rewrite (spa_fallback_warn env s H), final_check_warn.
    repeat split; try tauto; try discriminate.
    + cbn. rewrite drop_app_length. discriminate.
    + cbn. now rewrite drop_app_length.
Qed.

(** The dot is one character of the locale, not one byte: the two bytes
    of an accented letter in the dot's place are found in a UTF-8 locale
    and not in the C locale. *)
Lemma dot_is_one_character :
  spa_fallback_heuristic (with_locale two_byte accented_site) (warm no_dist false) =
    Running (after_pass "SPA fallback routing configured" (warm no_dist false)) /\
  spa_fallback_heuristic accented_site (warm no_dist false) =
    Running (after_warn "SPA fallback routing may not be configured" (warm no_dist false)).
Proof. split; reflexivity. Qed.




(** ** Running the checker twice *)

Section TwoRuns.

Variable R : Dist -> Dist -> Prop.
Variable env : Env.

Local Abbreviation respects := (respects R).

Lemma alike_counters s s' :
  alike R s s' -> PASSED s = PASSED s' /\ FAILED s = FAILED s' /\ WARNINGS s = WARNINGS s'.
Proof. intros (Ht & _ & _). unfold tally in Ht. now injection Ht. Qed.

Lemma respects_skip : respects skip.
Proof. now intros s s' H. Qed.

Lemma respects_seq c1 c2 : respects c1 -> respects c2 -> respects (c1 ;; c2).
Proof.
  intros H1 H2 s s' H. unfold seq. specialize (H1 s s' H).
  destruct (c1 s), (c1 s'); cbn in H1; try contradiction; [now apply H2|exact H1].
Qed.

Lemma respects_if (b : bool) c1 c2 : respects c1 -> respects c2 -> respects (if b then c1 else c2).
Proof. now destruct b. Qed.

Lemma respects_if_grep pattern file c1 c2 :
  respects c1 -> respects c2 -> respects (if_grep env pattern file c1 c2).
Proof. unfold if_grep. apply respects_if. Qed.

Lemma respects_for_each {A} (l : list A) body :
  (forall x, respects (body x)) -> respects (for_each l body).
Proof.
  intros H. induction l as [|x l IH]; cbn.
  - apply respects_skip.
  - apply respects_seq; auto.
Qed.

Lemma respects_errexit status : respects (errexit status).
Proof. intros s s' H. unfold errexit. destruct (status =? 0); cbn; auto. Qed.

Lemma respects_exit code : respects (exit code).
Proof. intros s s' H. cbn. auto. Qed.

Lemma alike_print l s s' : alike R s s' -> alike R (print l s) (print l s').
Proof.
  intros (Ht & Ho & Hd). unfold alike, tally in *. cbn. injection Ht as -> -> ->.
  now rewrite Ho.
Qed.

Lemma respects_echo l : respects (echo l).
Proof. intros s s' H. cbn. now apply alike_print. Qed.

Lemma respects_check_pass msg : respects (check_pass msg).
Proof.
  intros s s' H. rewrite !check_pass_eq.
  destruct (alike_counters s s' H) as (<- & _ & _).
  assert (alike R (after_pass msg s) (after_pass msg s')).
  { destruct H as (Ht & Ho & Hd). unfold alike, tally in *. cbn.
    injection Ht as -> -> ->. now rewrite Ho. }
  destruct (PASSED s =? 0); cbn; auto.
Qed.

Lemma respects_check_fail msg : respects (check_fail msg).
Proof.
  intros s s' H. rewrite !check_fail_eq.
  destruct (alike_counters s s' H) as (_ & <- & _).
  assert (alike R (after_fail msg s) (after_fail msg s')).
  { destruct H as (Ht & Ho & Hd). unfold alike, tally in *. cbn.
    injection Ht as -> -> ->. now rewrite Ho. }
  destruct (FAILED s =? 0); cbn; auto.
Qed.

Lemma respects_check_warn msg : respects (check_warn msg).
Proof.
  intros s s' H. rewrite !check_warn_eq.
  destruct (alike_counters s s' H) as (_ & _ & <-).
  assert (alike R (after_warn msg s) (after_warn msg s')).
  { destruct H as (Ht & Ho & Hd). unfold alike, tally in *. cbn.
    injection Ht as -> -> ->. now rewrite Ho. }
  destruct (WARNINGS s =? 0); cbn; auto.
Qed.

Lemma respects_set_test_image (b : State -> bool) :
  respects (fun s => Running (set_test_image (b s) s)).
Proof. intros s s' H. exact H. Qed.

Local Hint Resolve respects_skip respects_seq respects_if respects_if_grep
  respects_for_each respects_errexit respects_exit respects_echo
  respects_check_pass respects_check_fail respects_check_warn : core.

Lemma respects_docker_environment : respects (docker_environment env).
Proof.
  unfold docker_environment, docker_installed_check, docker_daemon_check, print_header.
  auto 10.
Qed.

Lemma respects_required_files : respects (required_files env).
Proof.
  unfold required_files, print_header. apply respects_seq; auto.
  apply respects_for_each. intros x. unfold required_file_check. auto.
Qed.

Lemma respects_ssl_certificates : respects (ssl_certificates env).
Proof. unfold ssl_certificates, certificate_check, expiry_check, print_header. auto 10. Qed.

Lemma respects_nginx_configuration : respects (nginx_configuration env).
Proof.
  unfold nginx_configuration, nginx_config_test, proxy_pass_heuristic,
    spa_fallback_heuristic, print_header. auto 10.
Qed.

Lemma respects_docker_build_test : respects (docker_build_test env).
Proof.
  unfold docker_build_test, docker_build_check, docker_rmi_or_true, print_header.
  apply respects_seq; auto. apply respects_if; auto.
  apply respects_seq; [apply (respects_set_test_image (fun _ => true))|].
  repeat (apply respects_seq; auto).
  intros s s' H. cbn. now destruct (docker_rmi env =? 0).
Qed.

Lemma respects_security_configuration : respects (security_configuration env).
Proof.
  unfold security_configuration, print_header.
  apply respects_seq; auto. apply respects_seq; auto.
  apply respects_for_each. intros x. unfold security_header_check. auto.
Qed.

Lemma respects_performance_configuration : respects (performance_configuration env).
Proof. unfold performance_configuration, print_header. auto 10. Qed.

Lemma respects_dns_configuration : respects (dns_configuration env).
Proof. unfold dns_configuration, print_header. auto 10. Qed.

Lemma respects_port_availability : respects (port_availability env).
Proof.
  unfold port_availability, print_header. apply respects_seq; auto.
  apply respects_for_each. intros x. unfold port_check. auto.
Qed.

Lemma respects_summary : respects summary.
Proof.
  unfold summary, print_header. apply respects_seq; auto.
  intros s s' H. cbv zeta.
  destruct (alike_counters s s' H) as (Hp & Hf & Hw). rewrite <- Hp, <- Hf, <- Hw.
  match goal with
  | |- alike_out R (?c s) (?c s') => assert (Hc : respects c) by auto 10; exact (Hc s s' H)
  end.
Qed.

End TwoRuns.

Section Rebuild.

Variable env : Env.

Lemma alike_weaken (R R' : Dist -> Dist -> Prop) s s' :
  (forall d d', R d d' -> R' d d') -> alike R s s' -> alike R' s s'.
Proof. intros HR (Ht & Ho & Hd). repeat split; auto. Qed.

Lemma alike_out_weaken (R R' : Dist -> Dist -> Prop) o o' :
  (forall d d', R d d' -> R' d d') -> alike_out R o o' -> alike_out R' o o'.
Proof.
  intros HR. destruct o, o'; cbn; try tauto.
  - now apply alike_weaken.
  - intros [-> H]. split; [reflexivity|]. now apply (alike_weaken R R').
Qed.

(** With the same build output the checks on [dist/] go the same way. *)
Lemma respects_dist_checks : respects eq (dist_checks env).
Proof.
  intros s s' H. pose proof H as (_ & _ & Hd). unfold dist_checks. rewrite <- Hd.
  destruct (dist_dir (dist s)); [|exact H].
  apply (respects_seq eq); [apply respects_check_pass| |exact H].
  clear. intros s s' H. pose proof H as (_ & _ & Hd). unfold index_html_check.
  rewrite <- Hd. destruct (dist_index_html (dist s)).
  - now apply respects_check_pass.
  - now apply respects_check_fail.
Qed.

(** Two builds that do the same leave the same build output behind. *)
Lemma production_build_alike s s' :
  alike (same_build env) s s' ->
  alike_out eq (production_build env s) (production_build env s').
Proof.
  intros H. pose proof H as (Ht & Ho & Hd). unfold same_build in Hd.
  unfold production_build. rewrite <- Hd.
  destruct (npm_run_build env (dist s)) as [status d].
  assert (Hs : alike eq (set_dist d s) (set_dist d s')) by (repeat split; assumption).
  destruct (status =? 0).
  - apply (respects_seq eq); [apply respects_check_pass|apply respects_dist_checks|exact Hs].
  - now apply respects_check_fail.
Qed.

Lemma respects_build_test : respects (same_build env) (build_test env).
Proof.
  unfold build_test, node_modules_check, print_header.
  apply respects_seq; [apply respects_echo|].
  apply respects_seq.
  - apply respects_if; [apply respects_check_pass|apply respects_check_warn].
  - intros s s' H. apply (alike_out_weaken eq).
    + now intros d d' ->.
    + now apply production_build_alike.
Qed.

Lemma respects_battery : respects (same_build env) (battery env).
Proof.
  unfold battery.
  repeat (apply respects_seq;
          [first [ apply respects_docker_environment | apply respects_required_files
                 | apply respects_ssl_certificates | apply respects_nginx_configuration
                 | apply respects_build_test | apply respects_docker_build_test
                 | apply respects_security_configuration
                 | apply respects_performance_configuration
                 | apply respects_dns_configuration | apply respects_port_availability ]|]).
  apply respects_summary.
Qed.

Lemma respects_check_production : respects (same_build env) (check_production env).
Proof.
  unfold check_production.
  apply respects_seq; [apply respects_errexit|].
  apply respects_seq; [apply respects_echo|apply respects_battery].
Qed.

Hypothesis stable : build_stable env.

(** Whatever the run does to [dist/], a build from there does what the
    first build did. *)
Lemma dist_from_check_production d0 : preserves (dist_from env d0) (check_production env).
Proof.
  apply preserves_check_production; unfold dist_from; cbn; auto.
  intros s [->| ->]; [now right|]. right. now rewrite stable.
Qed.

Lemma restart_alike s :
  alike (same_build env) s (restart s (final (check_production env s))).
Proof.
  repeat split. unfold same_build. cbn.
  destruct (dist_from_check_production (dist s) s) as [-> | ->]; [now left|reflexivity|].
  now rewrite stable.
Qed.

End Rebuild.

Lemma alike_out_same R o o' :
  alike_out R o o' ->
  tally (final o') = tally (final o) /\ exit_code o' = exit_code o /\
  stdout (final o') = stdout (final o).
Proof.
  destruct o, o'; cbn; try tauto.
  - intros (Ht & Ho & _). auto.
  - intros (-> & Ht & Ho & _). auto.
Qed.




(** ** Exit status 0 *)

Section ZeroExit.

Variable env : Env.

Lemma zero_exit_clean_skip : zero_exit_clean skip.
Proof. intros s code s' H. discriminate. Qed.

Lemma zero_exit_clean_seq c1 c2 :
  zero_exit_clean c1 -> zero_exit_clean c2 -> zero_exit_clean (c1 ;; c2).
Proof.
  intros H1 H2 s code s'. unfold seq. destruct (c1 s) as [s1|code1 s1] eqn:E.
  - apply H2.
  - intros [= -> ->]. now apply (H1 s).
Qed.

Lemma zero_exit_clean_if (b : bool) c1 c2 :
  zero_exit_clean c1 -> zero_exit_clean c2 -> zero_exit_clean (if b then c1 else c2).
Proof. now destruct b. Qed.

Lemma zero_exit_clean_branch (b : State -> bool) c1 c2 :
  zero_exit_clean c1 -> zero_exit_clean c2 ->
  zero_exit_clean (fun s => if b s then c1 s else c2 s).
Proof. intros H1 H2 s. destruct (b s); [apply H1|apply H2]. Qed.

Lemma zero_exit_clean_for_each {A} (l : list A) body :
  (forall x, zero_exit_clean (body x)) -> zero_exit_clean (for_each l body).
Proof.
  intros H. induction l as [|x l IH]; cbn.
  - apply zero_exit_clean_skip.
  - apply zero_exit_clean_seq; auto.
Qed.

Lemma zero_exit_clean_echo l : zero_exit_clean (echo l).
Proof. intros s code s' H. discriminate. Qed.

(** [set -e] ends the script with the failing command's status, never 0. *)
Lemma zero_exit_clean_errexit status : zero_exit_clean (errexit status).
Proof.
  intros s code s'. unfold errexit. destruct (status =? 0) eqn:E; [discriminate|].
  intros [= -> ->] ->. discriminate.
Qed.

Lemma zero_exit_clean_check_pass msg : zero_exit_clean (check_pass msg).
Proof.
  intros s code s'. rewrite check_pass_eq.
  destruct (PASSED s =? 0); [|discriminate]. intros [= <- _]. discriminate.
Qed.

Lemma zero_exit_clean_check_fail msg : zero_exit_clean (check_fail msg).
Proof.
  intros s code s'. rewrite check_fail_eq.
  destruct (FAILED s =? 0); [|discriminate]. intros [= <- _]. discriminate.
Qed.

Lemma zero_exit_clean_check_warn msg : zero_exit_clean (check_warn msg).
Proof.
  intros s code s'. rewrite check_warn_eq.
  destruct (WARNINGS s =? 0); [|discriminate]. intros [= <- _]. discriminate.
Qed.

Lemma zero_exit_clean_if_grep pattern file c1 c2 :
  zero_exit_clean c1 -> zero_exit_clean c2 ->
  zero_exit_clean (if_grep env pattern file c1 c2).
Proof. unfold if_grep. apply zero_exit_clean_if. Qed.

Local Hint Resolve zero_exit_clean_skip zero_exit_clean_seq zero_exit_clean_if
  zero_exit_clean_for_each zero_exit_clean_echo zero_exit_clean_errexit
  zero_exit_clean_check_pass zero_exit_clean_check_fail zero_exit_clean_check_warn
  zero_exit_clean_if_grep : core.

(** The only [exit 0] of the script stands behind [[ $FAILED -eq 0 ]]. *)
Lemma zero_exit_clean_summary : zero_exit_clean summary.
Proof.
  intros s code s' H Hc. destruct (summary_exit_code s) as (s1 & Hs & Ht & _).
  rewrite Hs in H. injection H as <- <-.
  assert (Hf : FAILED s1 = FAILED s) by (unfold tally in Ht; congruence).
  rewrite Hf. destruct (FAILED s =? 0) eqn:E; [now apply Z.eqb_eq|discriminate].
Qed.

Lemma always_exits_summary : always_exits summary.
Proof. intros s. destruct (summary_exit_code s) as (s1 & -> & _). reflexivity. Qed.

Lemma always_exits_seq c1 c2 : always_exits c2 -> always_exits (c1 ;; c2).
Proof. intros H s. unfold seq. destruct (c1 s); [apply H|reflexivity]. Qed.

Lemma zero_exit_clean_dist_checks : zero_exit_clean (dist_checks env).
Proof.
  unfold dist_checks, index_html_check.
  apply (zero_exit_clean_branch (fun s => dist_dir (dist s))); [|auto].
  apply zero_exit_clean_seq; [auto|].
  apply (zero_exit_clean_branch (fun s => dist_index_html (dist s))); auto.
Qed.

Lemma zero_exit_clean_production_build : zero_exit_clean (production_build env).
Proof.
  intros s code s'. unfold production_build.
  destruct (npm_run_build env (dist s)) as [status d].
  destruct (status =? 0).
  - apply (zero_exit_clean_seq _ _ (zero_exit_clean_check_pass _)
             zero_exit_clean_dist_checks).
  - apply zero_exit_clean_check_fail.
Qed.

Lemma zero_exit_clean_docker_build_check : zero_exit_clean (docker_build_check env).
Proof.
  unfold docker_build_check, docker_rmi_or_true.
  apply zero_exit_clean_if; [|auto].
  apply zero_exit_clean_seq; [intros s code s' H; discriminate|].
  apply zero_exit_clean_seq; [apply zero_exit_clean_check_pass|].
  apply zero_exit_clean_seq; [apply zero_exit_clean_errexit|].
  apply zero_exit_clean_seq; [apply zero_exit_clean_check_pass|].
  intros s code s' H. discriminate.
Qed.

Lemma zero_exit_clean_battery : zero_exit_clean (battery env).
Proof.
  unfold battery, docker_environment, docker_installed_check, docker_daemon_check,
    required_files, ssl_certificates, certificate_check, expiry_check,
    nginx_configuration, nginx_config_test, proxy_pass_heuristic,
    spa_fallback_heuristic, build_test, node_modules_check, docker_build_test,
    security_configuration, performance_configuration, dns_configuration,
    port_availability, print_header.
  repeat first
    [ apply zero_exit_clean_production_build | apply zero_exit_clean_docker_build_check
    | apply zero_exit_clean_summary
    | apply zero_exit_clean_check_pass | apply zero_exit_clean_check_fail
    | apply zero_exit_clean_check_warn
    | apply zero_exit_clean_seq | apply zero_exit_clean_if
    | apply zero_exit_clean_if_grep
    | apply zero_exit_clean_for_each;
      intros ?; unfold required_file_check, security_header_check, port_check
    | apply zero_exit_clean_echo | apply zero_exit_clean_errexit
    | apply zero_exit_clean_skip ].
Qed.

Lemma always_exits_battery : always_exits (battery env).
Proof. unfold battery. do 10 apply always_exits_seq. apply always_exits_summary. Qed.

End ZeroExit.

(** X5: exit status 0 means no failed check.  The battery always ends
    the script, and whenever it ends it with status 0 the failed counter
    is 0, from any values of the counters; this is one half of the exit
    code rule, and the half that holds of the script.  (The other half
    does not: see C1.) *)
Theorem exit_zero_means_no_failure env s :
  exit_code (battery env s) = 0 ->
  is_running (battery env s) = false /\ FAILED (final (battery env s)) = 0.
Proof.
  intros H. pose proof (always_exits_battery env s) as Hr. split; [exact Hr|].
  destruct (battery env s) as [s'|code s'] eqn:E; [discriminate|].
  cbn in *. now apply (zero_exit_clean_battery env s code s').
Qed.

Lemma exit_zero_means_no_failure_witness :
  exit_code (battery ready_site (no_failure_yet no_dist false)) = 0 /\
  FAILED (final (battery ready_site (no_failure_yet no_dist false))) = 0.
Proof.
  assert (H : exit_code (battery ready_site (no_failure_yet no_dist false)) = 0)
    by (vm_compute; reflexivity).
  split; [exact H|].
  exact (proj2 (exit_zero_means_no_failure ready_site (no_failure_yet no_dist false) H)).
Defined.

(** ** From counters that are already counting *)

Ltac split_ready := split; [|split; [|split]].

Section GoesOn.

Variable fz : bool.

Lemma counting_weaken k k' v : k' <= k -> counting k v -> counting k' v.
Proof. unfold counting. lia. Qed.

Lemma counting_succ k v : 1 <= k -> counting k v -> counting (k - 1) (wrap64 (v + 1)).
Proof.
  unfold counting. intros Hk [H0 H1]. rewrite wrap64_small by lia. lia.
Qed.

Lemma counting_nonzero k v : counting k v -> (v =? 0) = false.
Proof. unfold counting. intros [H0 _]. apply Z.eqb_neq. lia. Qed.

Lemma ready_weaken k k' s : k' <= k -> ready fz k s -> ready fz k' s.
Proof.
  intros Hk (Hp & Hw & Hf & Hb). split; [|split; [|split]].
  - apply (counting_weaken k); assumption.
  - apply (counting_weaken k); assumption.
  - destruct fz; [assumption|]. apply (counting_weaken k); assumption.
  - assumption.
Qed.

Lemma no_banner_print l ls : is_banner l = false -> no_banner ls -> no_banner (ls ++ [l]).
Proof. intros Hl H. apply Forall_app. split; [exact H|]. now constructor. Qed.

Lemma ready_print l k s : is_banner l = false -> ready fz k s -> ready fz k (print l s).
Proof.
  intros Hl (Hp & Hw & Hf & Hb). split_ready; try assumption.
  cbn. now apply no_banner_print.
Qed.

Lemma ready_after_pass msg k s :
  1 <= k -> ready fz k s -> ready fz (k - 1) (after_pass msg s).
Proof.
  intros Hk (Hp & Hw & Hf & Hb). split_ready; cbn.
  - apply (counting_succ k); assumption.
  - apply (counting_weaken k); [lia|assumption].
  - destruct fz; [assumption|]. apply (counting_weaken k); [lia|assumption].
  - now apply no_banner_print.
Qed.

Lemma ready_after_warn msg k s :
  1 <= k -> ready fz k s -> ready fz (k - 1) (after_warn msg s).
Proof.
  intros Hk (Hp & Hw & Hf & Hb). split_ready; cbn.
  - apply (counting_weaken k); [lia|assumption].
  - apply (counting_succ k); assumption.
  - destruct fz; [assumption|]. apply (counting_weaken k); [lia|assumption].
  - now apply no_banner_print.
Qed.

Lemma goes_on_ext c ok ok' f f' n :
  (forall d, ok d = ok' d) -> (forall d, f d = f' d) -> goes_on fz c ok f n -> goes_on fz c ok' f' n.
Proof.
  intros Ho Hf H k s Hk Hs. specialize (H k s Hk Hs).
  rewrite <- Ho, <- Hf. exact H.
Qed.

Lemma goes_on_weaken c ok f n m : n <= m -> goes_on fz c ok f n -> goes_on fz c ok f m.
Proof.
  intros Hnm H k s Hk Hs. specialize (H k s (Z.le_trans _ _ _ Hnm Hk) Hs).
  destruct (ok (dist s)); [|exact H].
  destruct H as (s' & Hc & Hr & Hd). exists s'. split; [assumption|]. split; [|assumption].
  apply (ready_weaken (k - n)); [lia|assumption].
Qed.

Lemma goes_on_skip : goes_on fz skip (fun _ => true) (fun d => d) 0.
Proof.
  intros k s Hk Hs. exists s. split; [reflexivity|]. split; [|reflexivity].
  now rewrite Z.sub_0_r.
Qed.

Lemma goes_on_seq c1 c2 ok1 ok2 f1 f2 n1 n2 :
  0 <= n1 -> 0 <= n2 ->
  goes_on fz c1 ok1 f1 n1 -> goes_on fz c2 ok2 f2 n2 ->
  goes_on fz (c1 ;; c2) (fun d => ok1 d && ok2 (f1 d)) (fun d => f2 (f1 d)) (n1 + n2).
Proof.
  intros Hn1 Hn2 H1 H2 k s Hk Hs. unfold seq.
  specialize (H1 k s ltac:(lia) Hs). destruct (ok1 (dist s)); cbn.
  - destruct H1 as (s1 & -> & Hr1 & Hd1).
    specialize (H2 (k - n1) s1 ltac:(lia) Hr1). rewrite Hd1 in H2.
    destruct (ok2 (f1 (dist s))).
    + destruct H2 as (s2 & -> & Hr2 & Hd2). exists s2.
      split; [reflexivity|]. split; [|now rewrite Hd2].
      now replace (k - (n1 + n2)) with (k - n1 - n2) by lia.
    + exact H2.
  - destruct H1 as (code & s1 & -> & Hc & Hb). now exists code, s1.
Qed.

Lemma goes_on_if (b : bool) c1 c2 ok1 ok2 f n :
  goes_on fz c1 ok1 f n -> goes_on fz c2 ok2 f n ->
  goes_on fz (if b then c1 else c2) (fun d => if b then ok1 d else ok2 d) f n.
Proof. now destruct b. Qed.

Lemma goes_on_branch (b : Dist -> bool) c1 c2 ok1 ok2 f n :
  goes_on fz c1 ok1 f n -> goes_on fz c2 ok2 f n ->
  goes_on fz (fun s => if b (dist s) then c1 s else c2 s)
       (fun d => if b d then ok1 d else ok2 d) f n.
Proof.
  intros H1 H2 k s Hk Hs. destruct (b (dist s)); [now apply H1|now apply H2].
Qed.

Lemma goes_on_echo l : is_banner l = false -> goes_on fz (echo l) (fun _ => true) (fun d => d) 0.
Proof.
  intros Hl k s Hk Hs. exists (print l s). split; [reflexivity|]. split; [|reflexivity].
  rewrite Z.sub_0_r. now apply ready_print.
Qed.

Lemma goes_on_errexit status :
  goes_on fz (errexit status) (fun _ => status =? 0) (fun d => d) 0.
Proof.
  intros k s Hk Hs. unfold errexit. destruct (status =? 0) eqn:E.
  - exists s. split; [reflexivity|]. split; [|reflexivity]. now rewrite Z.sub_0_r.
  - exists status, s. split; [reflexivity|]. split; [|apply Hs]. intros ->. discriminate.
Qed.

Lemma goes_on_check_pass msg : goes_on fz (check_pass msg) (fun _ => true) (fun d => d) 1.
Proof.
  intros k s Hk Hs. rewrite check_pass_eq.
  rewrite (counting_nonzero k (PASSED s)) by apply Hs.
  exists (after_pass msg s). split; [reflexivity|]. split; [|reflexivity].
  now apply ready_after_pass.
Qed.

Lemma goes_on_check_warn msg : goes_on fz (check_warn msg) (fun _ => true) (fun d => d) 1.
Proof.
  intros k s Hk Hs. rewrite check_warn_eq.
  rewrite (counting_nonzero k (WARNINGS s)) by apply Hs.
  exists (after_warn msg s). split; [reflexivity|]. split; [|reflexivity].
  now apply ready_after_warn.
Qed.

(** [check_fail] ends the script exactly when it is the first to fail. *)
Lemma goes_on_check_fail msg : goes_on fz (check_fail msg) (fun _ => negb fz) (fun d => d) 1.
Proof.
  intros k s Hk Hs. rewrite check_fail_eq.
  pose proof Hs as (Hp & Hw & Hf & Hb). destruct fz; cbn.
  - rewrite Hf. cbn. exists 1, (after_fail msg s).
    split; [reflexivity|]. split; [discriminate|].
    cbn. apply no_banner_print; [reflexivity|assumption].
  - rewrite (counting_nonzero k (FAILED s)) by assumption.
    exists (after_fail msg s). split; [reflexivity|]. split; [|reflexivity].
    split_ready; cbn.
    + apply (counting_weaken k); [lia|assumption].
    + apply (counting_weaken k); [lia|assumption].
    + apply (counting_succ k); assumption.
    + apply no_banner_print; [reflexivity|assumption].
Qed.

(** [if b; then check_pass; else check_fail; fi] *)
Lemma goes_on_required (b : bool) m1 m2 :
  goes_on fz (if b then check_pass m1 else check_fail m2)
       (fun _ => passes fz b) (fun d => d) 1.
Proof.
  destruct b; cbn.
  - apply goes_on_check_pass.
  - apply goes_on_check_fail.
Qed.

(** [if b; then check_pass; else check_warn; fi], either way round. *)
Lemma goes_on_advisory (b : bool) c1 c2 :
  goes_on fz c1 (fun _ => true) (fun d => d) 1 -> goes_on fz c2 (fun _ => true) (fun d => d) 1 ->
  goes_on fz (if b then c1 else c2) (fun _ => true) (fun d => d) 1.
Proof. now destruct b. Qed.

Lemma goes_on_for_each {A} (l : list A) body (ok : A -> bool) n :
  0 <= n ->
  (forall x, goes_on fz (body x) (fun _ => ok x) (fun d => d) n) ->
  goes_on fz (for_each l body) (fun _ => forallb ok l) (fun d => d) (n * Z.of_nat (length l)).
Proof.
  intros Hn H. induction l as [|x l IH].
  - cbn. rewrite Z.mul_0_r. apply goes_on_skip.
  - cbn [for_each forallb length].
    replace (n * Z.of_nat (S (length l))) with (n + n * Z.of_nat (length l)) by lia.
    apply (goes_on_seq _ _ (fun _ => ok x) (fun _ => forallb ok l) (fun d => d) (fun d => d));
      auto. nia.
Qed.

End GoesOn.

Section SectionsGoOn.

Variable fz : bool.
Variable env : Env.

Local Abbreviation stay := (fun d : Dist => d).
Local Abbreviation always := (fun _ : Dist => true).

Lemma ready_set_test_image b k s : ready fz k s -> ready fz k (set_test_image b s).
Proof. now intros (Hp & Hw & Hf & Hb). Qed.

Lemma ready_set_dist d k s : ready fz k s -> ready fz k (set_dist d s).
Proof. now intros (Hp & Hw & Hf & Hb). Qed.

Lemma goes_on_docker_environment :
  goes_on fz (docker_environment env)
       (fun _ => passes fz (docker_installed env) && passes fz (docker_info env =? 0))
       stay 2.
Proof.
  unfold docker_environment, print_header, docker_installed_check, docker_daemon_check.
  apply (goes_on_seq fz _ _ always _ stay stay 0 2); [lia|lia|now apply goes_on_echo|].
  apply (goes_on_seq fz _ _ _ _ stay stay 1 1); [lia|lia|apply goes_on_required..].
Qed.

Lemma goes_on_required_files :
  goes_on fz (required_files env)
       (fun _ => forallb (fun file => passes fz (test_f env file)) files) stay 5.
Proof.
  unfold required_files, print_header.
  apply (goes_on_seq fz _ _ always _ stay stay 0 5); [lia|lia|now apply goes_on_echo|].
  apply (goes_on_for_each fz files _ (fun file => passes fz (test_f env file)) 1); [lia|].
  intros file. apply goes_on_required.
Qed.

Lemma goes_on_expiry_check : goes_on fz (expiry_check env) always stay 1.
Proof.
  unfold expiry_check. destruct (openssl_installed env).
  - destruct (test_n (openssl_enddate env)).
    + apply goes_on_check_pass.
    + apply (goes_on_weaken fz _ _ _ 0); [lia|apply goes_on_skip].
  - apply (goes_on_weaken fz _ _ _ 0); [lia|apply goes_on_skip].
Qed.

Lemma goes_on_certificate_check :
  goes_on fz (certificate_check env) (fun _ => passes fz (certificates_found env)) stay 2.
Proof.
  unfold certificate_check, certificates_found.
  destruct (test_d env CERT_PATH).
  - destruct (_ && _).
    + apply (goes_on_seq fz _ _ always always stay stay 1 1);
        [lia|lia|apply goes_on_check_pass|apply goes_on_expiry_check].
    + apply (goes_on_weaken fz _ _ _ 1); [lia|apply goes_on_check_fail].
  - destruct (test_d env LOCAL_CERT_PATH).
    + destruct (_ && _).
      * apply (goes_on_weaken fz _ _ _ 1); [lia|apply goes_on_check_pass].
      * apply (goes_on_weaken fz _ _ _ 1); [lia|apply goes_on_check_fail].
    + apply (goes_on_ext fz _ (fun d => negb fz && true) _ stay stay);
        [intros d; apply andb_true_r|reflexivity|].
      apply (goes_on_seq fz _ _ _ always stay stay 1 1);
        [lia|lia|apply goes_on_check_fail|].
      apply (goes_on_weaken fz _ _ _ 0); [lia|now apply goes_on_echo].
Qed.

Lemma goes_on_nginx_config_test :
  goes_on fz (nginx_config_test env) (fun _ => nginx_goes_on fz env) stay 1.
Proof.
  unfold nginx_config_test, nginx_goes_on. destruct (nginx_t env =? 0).
  - apply goes_on_check_pass.
  - apply (goes_on_seq fz _ _ _ _ stay stay 1 0); [lia|lia|apply goes_on_check_fail|].
    apply (goes_on_seq fz _ _ always _ stay stay 0 0);
      [lia|lia|now apply goes_on_echo|apply goes_on_errexit].
Qed.

(** [if grep -q ...; then check_x; else check_y; fi] with two results
    that let the script go on. *)
Lemma goes_on_if_grep pattern file c1 c2 :
  goes_on fz c1 always stay 1 -> goes_on fz c2 always stay 1 ->
  goes_on fz (if_grep env pattern file c1 c2) always stay 1.
Proof. unfold if_grep. now destruct (_ =? 0). Qed.

Lemma goes_on_skip_1 : goes_on fz skip always stay 1.
Proof. apply (goes_on_weaken fz _ _ _ 0); [lia|apply goes_on_skip]. Qed.

Lemma goes_on_nginx_configuration :
  goes_on fz (nginx_configuration env) (fun _ => nginx_goes_on fz env) stay 3.
Proof.
  unfold nginx_configuration, print_header, proxy_pass_heuristic, spa_fallback_heuristic.
  apply (goes_on_ext fz _ (fun d => true && (nginx_goes_on fz env && (true && true))) _ stay stay);
    [intros d; cbn; now rewrite andb_true_r|reflexivity|].
  apply (goes_on_seq fz _ _ always _ stay stay 0 3); [lia|lia|now apply goes_on_echo|].
  apply (goes_on_seq fz _ _ _ _ stay stay 1 2); [lia|lia|apply goes_on_nginx_config_test|].
  apply (goes_on_seq fz _ _ always always stay stay 1 1); [lia|lia|..];
    apply goes_on_if_grep;
    first [apply goes_on_check_pass|apply goes_on_check_warn|apply goes_on_skip_1].
Qed.

Lemma goes_on_index_html_check :
  goes_on fz index_html_check (fun d => passes fz (dist_index_html d)) stay 1.
Proof.
  unfold index_html_check.
  apply (goes_on_ext fz _ (fun d => if dist_index_html d then true else negb fz) _ stay stay);
    [intros d; now destruct (dist_index_html d)|reflexivity|].
  apply (goes_on_branch fz dist_index_html _ _ always (fun _ => negb fz) stay 1).
  - apply goes_on_check_pass.
  - apply goes_on_check_fail.
Qed.

Lemma goes_on_dist_checks :
  goes_on fz (dist_checks env)
       (fun d => if dist_dir d then passes fz (dist_index_html d) else true) stay 2.
Proof.
  unfold dist_checks.
  apply (goes_on_branch fz dist_dir _ _ (fun d => passes fz (dist_index_html d)) always stay 2).
  - apply (goes_on_seq fz _ _ always _ stay stay 1 1);
      [lia|lia|apply goes_on_check_pass|apply goes_on_index_html_check].
  - apply (goes_on_weaken fz _ _ _ 0); [lia|apply goes_on_skip].
Qed.

Lemma goes_on_production_build :
  goes_on fz (production_build env) (build_goes_on fz env)
       (fun d => snd (npm_run_build env d)) 3.
Proof.
  intros k s Hk Hs. unfold production_build, build_goes_on.
  destruct (npm_run_build env (dist s)) as [status d'] eqn:E. cbn [snd].
  pose proof (ready_set_dist d' k s Hs) as Hs'.
  destruct (status =? 0).
  - pose proof (goes_on_seq fz _ _ always _ stay stay 1 2 ltac:(lia) ltac:(lia)
                  (goes_on_check_pass fz "Production build successful")
                  goes_on_dist_checks k (set_dist d' s) Hk Hs') as H.
    cbn [dist set_dist andb] in H. exact H.
  - pose proof (goes_on_weaken fz _ _ _ 1 3 ltac:(lia)
                  (goes_on_check_fail fz "Production build failed") k (set_dist d' s) Hk Hs') as H.
    cbn [dist set_dist] in H. exact H.
Qed.

Lemma goes_on_build_test :
  goes_on fz (build_test env) (build_goes_on fz env) (fun d => snd (npm_run_build env d)) 4.
Proof.
  unfold build_test, print_header, node_modules_check.
  apply (goes_on_seq fz _ _ always _ stay _ 0 4); [lia|lia|now apply goes_on_echo|].
  apply (goes_on_seq fz _ _ always _ stay _ 1 3); [lia|lia| |apply goes_on_production_build].
  destruct (test_d env "node_modules"); [apply goes_on_check_pass|apply goes_on_check_warn].
Qed.

Lemma goes_on_docker_build_check :
  goes_on fz (docker_build_check env) (fun _ => docker_build_goes_on fz env) stay 2.
Proof.
  unfold docker_build_check, docker_build_goes_on, docker_rmi_or_true.
  destruct (docker_build env =? 0).
  - apply (goes_on_ext fz _ (fun d => true && (true && ((fst (docker_images env) =? 0)
                                              && (true && true)))) _ stay stay);
      [intros d; cbn; now rewrite andb_true_r|reflexivity|].
    apply (goes_on_seq fz _ _ always _ stay stay 0 2); [lia|lia| |].
    { intros k s Hk Hs. exists (set_test_image true s).
      split; [reflexivity|]. split; [|reflexivity].
      rewrite Z.sub_0_r. now apply ready_set_test_image. }
    apply (goes_on_seq fz _ _ always _ stay stay 1 1); [lia|lia|apply goes_on_check_pass|].
    apply (goes_on_seq fz _ _ _ _ stay stay 0 1); [lia|lia|apply goes_on_errexit|].
    apply (goes_on_seq fz _ _ always always stay stay 1 0); [lia|lia|apply goes_on_check_pass|].
    intros k s Hk Hs.
    exists (if docker_rmi env =? 0 then set_test_image false s else s).
    split; [reflexivity|]. rewrite Z.sub_0_r.
    destruct (docker_rmi env =? 0); split; try reflexivity; assumption.
  - apply (goes_on_weaken fz _ _ _ 1); [lia|apply goes_on_check_fail].
Qed.

Lemma goes_on_security_configuration : goes_on fz (security_configuration env) always stay 6.
Proof.
  unfold security_configuration, print_header.
  apply (goes_on_seq fz _ _ always always stay stay 0 6); [lia|lia|now apply goes_on_echo|].
  apply (goes_on_seq fz _ _ always always stay stay 4 2); [lia|lia| |].
  - apply (goes_on_ext fz _ (fun _ => forallb (fun _ => true) security_headers) _ stay stay);
      [reflexivity|reflexivity|].
    apply (goes_on_for_each fz security_headers _ (fun _ => true) 1); [lia|].
    intros header. unfold security_header_check.
    apply goes_on_if_grep; [apply goes_on_check_pass|apply goes_on_check_warn].
  - apply (goes_on_seq fz _ _ always always stay stay 1 1); [lia|lia|..];
      apply goes_on_if_grep; first [apply goes_on_check_pass|apply goes_on_check_warn].
Qed.

Lemma goes_on_performance_configuration :
  goes_on fz (performance_configuration env) always stay 4.
Proof.
  unfold performance_configuration, print_header.
  apply (goes_on_seq fz _ _ always always stay stay 0 4); [lia|lia|now apply goes_on_echo|].
  apply (goes_on_seq fz _ _ always always stay stay 1 3); [lia|lia| |].
  { apply goes_on_if_grep; [apply goes_on_check_pass|apply goes_on_check_warn]. }
  apply (goes_on_seq fz _ _ always always stay stay 1 2); [lia|lia| |].
  { apply goes_on_if_grep; [apply goes_on_check_pass|apply goes_on_check_warn]. }
  apply (goes_on_seq fz _ _ always always stay stay 1 1); [lia|lia|..];
    apply goes_on_if_grep; first [apply goes_on_check_pass|apply goes_on_check_warn].
Qed.

Lemma goes_on_dns_configuration : goes_on fz (dns_configuration env) always stay 1.
Proof.
  unfold dns_configuration, print_header.
  apply (goes_on_seq fz _ _ always always stay stay 0 1); [lia|lia|now apply goes_on_echo|].
  destruct (dig_installed env); [destruct (test_n (dig_short env))|];
    first [apply goes_on_check_pass|apply goes_on_check_warn].
Qed.

Lemma goes_on_port_availability : goes_on fz (port_availability env) always stay 2.
Proof.
  unfold port_availability, print_header.
  apply (goes_on_seq fz _ _ always always stay stay 0 2); [lia|lia|now apply goes_on_echo|].
  apply (goes_on_ext fz _ (fun _ => forallb (fun _ => true) ["80"; "443"]%string) _ stay stay);
    [reflexivity|reflexivity|].
  apply (goes_on_for_each fz ["80"; "443"]%string _ (fun _ => true) 1); [lia|].
  intros port. unfold port_check.
  destruct (port_in_use env port); [apply goes_on_check_warn|apply goes_on_check_pass].
Qed.

End SectionsGoOn.

Section Verdict.

Variable fz : bool.
Variable env : Env.

Local Abbreviation stay := (fun d : Dist => d).
Local Abbreviation always := (fun _ : Dist => true).

Lemma goes_on_ssl_certificates :
  goes_on fz (ssl_certificates env) (fun _ => passes fz (certificates_found env)) stay 2.
Proof.
  unfold ssl_certificates, print_header.
  apply (goes_on_seq fz _ _ always _ stay stay 0 2);
    [lia|lia|now apply goes_on_echo|apply goes_on_certificate_check].
Qed.

Lemma goes_on_docker_build_test :
  goes_on fz (docker_build_test env) (fun _ => docker_build_goes_on fz env) stay 2.
Proof.
  unfold docker_build_test, print_header.
  apply (goes_on_seq fz _ _ always _ stay stay 0 2);
    [lia|lia|now apply goes_on_echo|apply goes_on_docker_build_check].
Qed.

Lemma verdict_ext c ok ok' n :
  (forall d, ok' d = ok d) -> verdict fz c ok n -> verdict fz c ok' n.
Proof. intros E H k s Hk Hs. rewrite E. exact (H k s Hk Hs). Qed.

Lemma verdict_seq c1 c2 ok1 ok2 f1 n1 n2 :
  0 <= n1 -> 0 <= n2 ->
  goes_on fz c1 ok1 f1 n1 -> verdict fz c2 ok2 n2 ->
  verdict fz (c1 ;; c2) (fun d => ok1 d && ok2 (f1 d)) (n1 + n2).
Proof.
  intros H1 H2 G V k s Hk Hs. specialize (G k s ltac:(lia) Hs). unfold seq.
  destruct (ok1 (dist s)); cbn [andb].
  - destruct G as (s1 & -> & Hs1 & <-).
    apply (V (k - n1) s1); [lia|exact Hs1].
  - destruct G as (code & s1 & -> & Hc & Hb). now exists code, s1.
Qed.

Lemma verdict_summary : verdict fz summary always 0.
Proof.
  intros k s Hk (Hp & Hw & Hf & Hb). cbv beta iota.
  unfold summary, print_header, seq, echo, exit. cbv beta iota.
  destruct fz.
  - cbn [print FAILED]. rewrite Hf. cbn [Z.eqb]. eexists. split; [reflexivity|].
    cbn [stdout print]. apply last_snoc.
  - assert ((FAILED s =? 0) = false) as E by (apply Z.eqb_neq; destruct Hf; lia).
    cbn [print FAILED]. rewrite E. eexists. split; [reflexivity|].
    cbn [stdout print]. apply last_snoc.
Qed.

Lemma verdict_battery : verdict fz (battery env) (goes_through fz env) 31.
Proof.
  unfold battery.
  eapply verdict_ext;
    [|eapply (verdict_seq _ _ _ _ _ 2 29); [lia|lia|apply (goes_on_docker_environment fz env)|];
      eapply (verdict_seq _ _ _ _ _ 5 24); [lia|lia|apply (goes_on_required_files fz env)|];
      eapply (verdict_seq _ _ _ _ _ 2 22); [lia|lia|apply goes_on_ssl_certificates|];
      eapply (verdict_seq _ _ _ _ _ 3 19); [lia|lia|apply (goes_on_nginx_configuration fz env)|];
      eapply (verdict_seq _ _ _ _ _ 4 15); [lia|lia|apply (goes_on_build_test fz env)|];
      eapply (verdict_seq _ _ _ _ _ 2 13); [lia|lia|apply goes_on_docker_build_test|];
      eapply (verdict_seq _ _ _ _ _ 6 7); [lia|lia|apply (goes_on_security_configuration fz env)|];
      eapply (verdict_seq _ _ _ _ _ 4 3); [lia|lia|apply (goes_on_performance_configuration fz env)|];
      eapply (verdict_seq _ _ _ _ _ 1 2); [lia|lia|apply (goes_on_dns_configuration fz env)|];
      eapply (verdict_seq _ _ _ _ _ 2 0); [lia|lia|apply (goes_on_port_availability fz env)|];
      apply verdict_summary].
  intros d. unfold goes_through. cbn [andb]. rewrite !andb_true_r, !andb_assoc. reflexivity.
Qed.

End Verdict.

Lemma no_banner_last ls b : no_banner ls -> last ls <> Some (Banner b).
Proof.
  intros H E. apply last_Some in E as (l' & ->).
  apply Forall_app in H as [_ H]. apply Forall_cons in H as [H _]. discriminate H.
Qed.

Lemma goes_through_no_failure env d : goes_through true env d = required_ok env d.
Proof.
  unfold goes_through, required_ok, passes, nginx_goes_on, build_goes_on, build_found,
    docker_build_goes_on, files.
  cbn [forallb negb]. rewrite !orb_false_r.
  destruct (npm_run_build env d) as [status d'].
  destruct (nginx_t env =? 0), (status =? 0), (docker_build env =? 0), (dist_dir d');
    unfold passes; cbn [andb orb negb];
    rewrite ?orb_false_r, ?orb_true_r, ?andb_true_r, ?andb_false_r; reflexivity.
Qed.

Lemma goes_through_failure env d : goes_through false env d = unguarded_ok env.
Proof.
  unfold goes_through, unguarded_ok, passes, nginx_goes_on, build_goes_on,
    docker_build_goes_on, files.
  cbn [forallb negb]. rewrite !orb_true_r.
  destruct (npm_run_build env d) as [status d'].
  destruct (nginx_t env =? 0), (status =? 0), (docker_build env =? 0), (dist_dir d');
    unfold passes; cbn [andb orb negb];
    rewrite ?orb_false_r, ?orb_true_r, ?andb_true_r, ?andb_false_r; reflexivity.
Qed.

(** ** The battery from counters that are already counting *)

(** X6: with PASSED and WARNINGS already positive and FAILED still 0, the
    battery ends the script with status 0 exactly when docker is
    installed and its daemon answers, the five required files exist, a
    complete certificate directory is found, [nginx -t] succeeds, the
    production build succeeds and leaves an [index.html] if it leaves a
    [dist] at all, the image builds and [docker images] succeeds.  Then
    the READY banner is the last line printed; otherwise the script ends
    with a non-zero status before any banner. *)
Theorem battery_exit_zero_iff_required_ok env s :
  ready true 31 s ->
  (exit_code (battery env s) = 0 <-> required_ok env (dist s) = true) /\
  (required_ok env (dist s) = true ->
   last (stdout (final (battery env s))) = Some (Banner true)) /\
  (required_ok env (dist s) = false ->
   is_running (battery env s) = false /\ no_banner (stdout (final (battery env s)))).
Proof.
  intros Hs. pose proof (verdict_battery true env 31 s ltac:(lia) Hs) as H.
  rewrite goes_through_no_failure in H.
  destruct (required_ok env (dist s)).
  - destruct H as (s' & -> & Hl). cbn. repeat split; auto; discriminate.
  - destruct H as (code & s' & -> & Hc & Hb). cbn.
    repeat split; auto; try discriminate.
Qed.

Lemma battery_exit_zero_iff_required_ok_witness :
  ready true 31 (no_failure_yet no_dist false) /\
  exit_code (battery ready_site (no_failure_yet no_dist false)) = 0.
Proof.
  assert (ready true 31 (no_failure_yet no_dist false)) as H.
  { split_ready; [split; reflexivity|split; reflexivity|reflexivity|].
    repeat constructor. }
  split; [exact H|].
  apply (proj2 (proj1 (battery_exit_zero_iff_required_ok ready_site _ H))).
  vm_compute. reflexivity.
Defined.

(** X7: with all three counters already positive, the battery never
    ends with status 0.  It reaches the summary, prints the NOT READY
    banner last and exits with status 1, exactly when neither command
    that runs outside a condition fails: the second [docker run ... nginx
    -t] of line 118 after a failed first one, and [docker images] of line
    165 after a successful build.  Otherwise it ends before any banner.
    No result of a check, required or not, decides this. *)
Theorem battery_after_a_failure env s :
  ready false 31 s ->
  exit_code (battery env s) <> 0 /\
  (unguarded_ok env = true ->
   exit_code (battery env s) = 1 /\
   last (stdout (final (battery env s))) = Some (Banner false)) /\
  (unguarded_ok env = false -> no_banner (stdout (final (battery env s)))).
Proof.
  intros Hs. pose proof (verdict_battery false env 31 s ltac:(lia) Hs) as H.
  rewrite goes_through_failure in H.
  destruct (unguarded_ok env).
  - destruct H as (s' & -> & Hl). cbn. repeat split; auto; discriminate.
  - destruct H as (code & s' & -> & Hc & Hb). cbn. repeat split; auto; discriminate.
Qed.

Lemma battery_after_a_failure_witness :
  ready false 31 (warm no_dist false) /\
  exit_code (battery daemon_down (warm no_dist false)) <> 0.
Proof.
  assert (ready false 31 (warm no_dist false)) as H.
  { split_ready; [split; reflexivity|split; reflexivity|split; reflexivity|].
    repeat constructor. }
  split; [exact H|].
  exact (proj1 (battery_after_a_failure daemon_down _ H)).
Defined.

(** X8: sections 7 to 10 (security, performance, DNS, ports) never
    record a Fail: whatever the environment and the counters, and whether
    or not they end the script, they leave FAILED, the number of Fail
    lines, the build output and the test image as they found them. *)
Theorem advisory_sections_never_fail env s :
  FAILED (final (advisory_sections env s)) = FAILED s /\
  count_tag Fail (stdout (final (advisory_sections env s))) = count_tag Fail (stdout s) /\
  dist (final (advisory_sections env s)) = dist s /\
  test_image (final (advisory_sections env s)) = test_image s.
Proof.
  set (P := fun s' : State =>
              FAILED s' = FAILED s /\
              count_tag Fail (stdout s') = count_tag Fail (stdout s) /\
              dist s' = dist s /\ test_image s' = test_image s).
  assert (forall l s', is_result l = false -> P s' -> P (print l s')) as P_print.
  { intros l s' Hl (H1 & H2 & H3 & H4). repeat split; auto. cbn.
    rewrite count_tag_app. cbn. destruct l; try discriminate; cbn; lia. }
  assert (forall msg s', P s' -> P (after_pass msg s')) as P_pass.
  { intros msg s' (H1 & H2 & H3 & H4). repeat split; auto. cbn.
    rewrite count_tag_app. cbn. lia. }
  assert (forall msg s', P s' -> P (after_warn msg s')) as P_warn.
  { intros msg s' (H1 & H2 & H3 & H4). repeat split; auto. cbn.
    rewrite count_tag_app. cbn. lia. }
  assert (preserves P (advisory_sections env)) as H.
  { unfold advisory_sections.
    apply preserves_seq; [|apply preserves_seq; [|apply preserves_seq]].
    - now apply preserves_security_configuration.
    - now apply preserves_performance_configuration.
    - now apply preserves_dns_configuration.
    - now apply preserves_port_availability. }
  apply H. repeat split.
Qed.

(** X9: the test image after the container-build check, from any
    counters.  After a failed build it is as the check found it.  After a
    successful build it is absent only when the check ran up to its
    cleanup and [docker rmi] succeeded; in every other case the image is
    left behind, in particular when [docker images] fails at line 165 or
    when a Pass is the first one counted. *)
Theorem test_image_after_build_check env s :
  test_image (final (docker_build_check env s)) =
    if docker_build env =? 0
    then negb (is_running (docker_build_check env s) && (docker_rmi env =? 0))
    else test_image s.
Proof.
  unfold docker_build_check, docker_rmi_or_true.
  destruct (docker_build env =? 0); [|now rewrite final_check_fail].
  unfold seq, errexit; cbv beta iota.
  check_step; [reflexivity|].
  destruct (fst (docker_images env) =? 0); [|reflexivity].
  cbv beta iota. check_step; [reflexivity|].
  destruct (docker_rmi env =? 0); reflexivity.
Qed.

(** ** The checks that look for literal text *)

Lemma security_header_plain header :
  header ∈ security_headers -> operator_free header = true /\ dot_free header = true.
Proof.
  unfold security_headers. intros H.
  repeat (apply elem_of_cons in H as [->|H]; [split; reflexivity|]).
  now apply elem_of_nil in H.
Qed.


(** X10: the SSL protocols check of lines 193-198, the third check of
    section 7.  It records the Pass "Modern SSL protocols configured",
    and counts it, exactly when [nginx.conf] can be read and one of its
    lines contains [ssl_protocols TLSv1], one character, [2 TLSv1], one
    character, [3]: the two dots of the pattern stand for any character
    of the locale, and the two versions must stand in this order with one
    blank between them.  It records and counts the Warn "SSL protocols
    may not be optimally configured" exactly otherwise, also when
    [nginx.conf] cannot be read. *)
Theorem ssl_protocols_check_exact env s :
  security_configuration env =
    (print_header "7. Security Configuration" ;;
     for_each security_headers (security_header_check env) ;;
     ssl_protocols_check env ;;
     if_grep env "USER nginx" "Dockerfile"
       (check_pass "Container runs as non-root user")
       (check_warn "Container may be running as root")) /\
  (added (ssl_protocols_check env) s = [Result Pass "Modern SSL protocols configured"] <->
   finds_modern_ssl env) /\
  (added (ssl_protocols_check env) s =
     [Result Warn "SSL protocols may not be optimally configured"] <->
   ~ finds_modern_ssl env) /\
  (finds_modern_ssl env ->
   final (ssl_protocols_check env s) = after_pass "Modern SSL protocols configured" s) /\
  (~ finds_modern_ssl env ->
   final (ssl_protocols_check env s) =
     after_warn "SSL protocols may not be optimally configured" s).
Proof.
  split; [reflexivity|].
  pose proof (grep_q_modern_ssl env) as G. fold (finds_modern_ssl env) in G.
  unfold added, ssl_protocols_check, if_grep.
  destruct (grep_q env "ssl_protocols TLSv1.2 TLSv1.3" "nginx.conf" =? 0) eqn:E.
  - apply Z.eqb_eq, G in E. rewrite final_check_pass.
    repeat split; try tauto; try discriminate.
    + cbn. now rewrite drop_app_length.
    + cbn. rewrite drop_app_length. discriminate.
  - apply Z.eqb_neq in E. assert (~ finds_modern_ssl env) as Hn by (intros H; now apply E, G).
    rewrite final_check_warn.
    repeat split; try tauto; try discriminate.
    + cbn. rewrite drop_app_length. discriminate.
    + cbn. now rewrite drop_app_length.
Qed.

(** X11: each security header check of lines 185-191 is a containment
    test: it records the Pass "<header> configured" exactly when
    nginx.conf can be read and one of its lines contains the header's
    name, anywhere and also in a comment, and the Warn "<header> not
    configured" exactly otherwise, in particular when nginx.conf is
    missing.  It records nothing else. *)
Theorem security_header_check_is_containment env header s :
  header ∈ security_headers ->
  (added (security_header_check env header) s = [Result Pass (header +:+ " configured")] <->
   exists ls, contents env !! "nginx.conf" = Some ls /\ occurs_in header ls) /\
  (added (security_header_check env header) s = [Result Warn (header +:+ " not configured")] <->
   ~ exists ls, contents env !! "nginx.conf" = Some ls /\ occurs_in header ls).
Proof.
  intros H. apply security_header_plain in H as [Ho Hd].
  assert (grep_q env header "nginx.conf" = 0 <->
          exists ls, contents env !! "nginx.conf" = Some ls /\ occurs_in header ls) as G.
  { now apply grep_q_plain. }
  rewrite <- G. unfold security_header_check, if_grep.
  destruct (grep_q env header "nginx.conf" =? 0) eqn:E.
  - apply Z.eqb_eq in E. rewrite added_check_pass. split; split; auto; try discriminate.
    intros Hn. now destruct Hn.
  - apply Z.eqb_neq in E. rewrite added_check_warn. split; split; auto; try discriminate.
    intros Hn. now destruct E.
Qed.

Lemma security_header_check_is_containment_witness :
  added (security_header_check spa_behind_proxy "X-Frame-Options") (warm no_dist false) =
    [Result Warn "X-Frame-Options not configured"] <->
  ~ exists ls, contents spa_behind_proxy !! "nginx.conf" = Some ls /\
               occurs_in "X-Frame-Options" ls.
Proof.
  apply (security_header_check_is_containment spa_behind_proxy "X-Frame-Options").
  unfold security_headers. repeat constructor.
Defined.

(** X12: the certificate check on certificates issued by the authority.
    When the authority's directory holds both files and PASSED is already
    counting, the check records the Pass for the files and, if openssl is
    installed and prints an end date, a second Pass that quotes the date;
    it records nothing else, no Fail and no Warn, and the script goes on.
    The date is only quoted: whatever it is, also one in the past, the
    result is a Pass. *)
Theorem certificate_check_with_authority env s :
  CERT_PATH ∈ dirs env ->
  CERT_PATH +:+ "/fullchain.pem" ∈ regular_files env ->
  CERT_PATH +:+ "/privkey.pem" ∈ regular_files env ->
  0 < PASSED s < 2 ^ 62 ->
  is_running (certificate_check env s) = true /\
  added (certificate_check env) s =
    Result Pass ("SSL certificates found in " +:+ CERT_PATH) ::
    (if openssl_installed env && test_n (openssl_enddate env)
     then [Result Pass ("Certificate expires: " +:+ openssl_enddate env)]
     else []) /\
  FAILED (final (certificate_check env s)) = FAILED s /\
  WARNINGS (final (certificate_check env s)) = WARNINGS s.
Proof.
  intros Hd Hf Hk Hp. unfold certificate_check, expiry_check, added.
  rewrite (test_d_true _ _ Hd), (test_f_true _ _ Hf), (test_f_true _ _ Hk).
  cbn [andb]. unfold seq. counting_step. cbv beta iota.
  destruct (openssl_installed env); cbn [andb].
  - destruct (test_n (openssl_enddate env)).
    + counting_step. repeat split. cbn. rewrite <- app_assoc. apply drop_app_length.
    + repeat split. cbn. apply drop_app_length.
  - repeat split. cbn. apply drop_app_length.
Qed.

Lemma certificate_check_with_authority_witness :
  added (certificate_check ca_certificates) (warm no_dist false) =
    [Result Pass ("SSL certificates found in " +:+ CERT_PATH);
     Result Pass "Certificate expires: Jan  1 00:00:00 2027 GMT"].
Proof.
  refine (proj1 (proj2 (certificate_check_with_authority ca_certificates (warm no_dist false)
                          _ _ _ _))).
  - apply path_in. vm_compute. reflexivity.
  - apply path_in. vm_compute. reflexivity.
  - apply path_in. vm_compute. reflexivity.
  - cbn. lia.
Defined.

(** ** The required-file loop in general *)

Section RequiredFilesLoop.

Variable env : Env.

Lemma present_bounds l : 0 <= present env l <= Z.of_nat (length l).
Proof.
  induction l as [|file l IH]; cbn [present length]; [lia|].
  destruct (test_f env file); lia.
Qed.

Lemma for_each_required_file_check l :
  forall s,
    0 < PASSED s -> 0 < FAILED s ->
    PASSED s + Z.of_nat (length l) < 2 ^ 62 ->
    FAILED s + Z.of_nat (length l) < 2 ^ 62 ->
    exists s',
      for_each l (required_file_check env) s = Running s' /\
      stdout s' = stdout s ++ map (required_file_line env) l /\
      PASSED s' = PASSED s + present env l /\
      FAILED s' = FAILED s + (Z.of_nat (length l) - present env l) /\
      WARNINGS s' = WARNINGS s.
Proof.
  induction l as [|file l IH]; intros s Hp Hf Hpl Hfl.
  - exists s. cbn. rewrite app_nil_r. repeat split; lia.
  - cbn [for_each length present map] in *. unfold seq, required_file_check, required_file_line.
    destruct (test_f env file).
    + counting_step. cbv beta iota.
      destruct (IH (after_pass (file +:+ " exists") s)) as (s' & Hr & Ho & H1 & H2 & H3).
      1-4: cbn [PASSED FAILED after_pass set_PASSED print]; unwrap; lia.
      exists s'. split; [exact Hr|]. rewrite Ho, H1, H2, H3.
      cbn [stdout PASSED FAILED WARNINGS after_pass set_PASSED print]. unwrap.
      rewrite <- app_assoc. repeat split; lia.
    + counting_step. cbv beta iota.
      destruct (IH (after_fail (file +:+ " is missing") s)) as (s' & Hr & Ho & H1 & H2 & H3).
      1-4: cbn [PASSED FAILED after_fail set_FAILED print]; unwrap; lia.
      exists s'. split; [exact Hr|]. rewrite Ho, H1, H2, H3.
      cbn [stdout PASSED FAILED WARNINGS after_fail set_FAILED print]. unwrap.
      rewrite <- app_assoc. repeat split; lia.
Qed.

End RequiredFilesLoop.

(** X13: the required-file section in general.  When PASSED and FAILED
    are both already positive and at least five below 2^62, the section
    goes through all five files of the array in order, prints after its
    header one line per file, Pass "<file> exists" or Fail "<file> is
    missing", adds the number of present files to PASSED and the number
    of missing ones to FAILED, and lets the script go on. *)
Theorem required_files_report env s :
  0 < PASSED s -> 0 < FAILED s ->
  PASSED s + 5 < 2 ^ 62 -> FAILED s + 5 < 2 ^ 62 ->
  is_running (required_files env s) = true /\
  added (required_files env) s =
    Header "2. Required Files" :: map (required_file_line env) files /\
  PASSED (final (required_files env s)) = PASSED s + present env files /\
  FAILED (final (required_files env s)) = FAILED s + (5 - present env files) /\
  WARNINGS (final (required_files env s)) = WARNINGS s.
Proof.
  intros Hp Hf Hpl Hfl. unfold required_files, print_header, seq, echo, added.
  destruct (for_each_required_file_check env files (print (Header "2. Required Files") s))
    as (s' & -> & Ho & H1 & H2 & H3); try assumption.
  cbn [final is_running]. rewrite Ho, H1, H2, H3. cbn [stdout print PASSED FAILED WARNINGS].
  rewrite <- app_assoc. rewrite drop_app_length. repeat split.
Qed.

Lemma required_files_report_witness :
  added (required_files sample_host) (warm no_dist false) =
    [Header "2. Required Files";
     Result Pass "Dockerfile exists"; Result Fail "nginx.conf is missing";
     Result Pass "package.json exists"; Result Fail "vite.config.js is missing";
     Result Fail ".dockerignore is missing"] /\
  FAILED (final (required_files sample_host (warm no_dist false))) = 4.
Proof.
  destruct (required_files_report sample_host (warm no_dist false))
    as (_ & Ha & _ & Hf & _); try (cbn; lia).
  split; [rewrite Ha|rewrite Hf]; vm_compute; reflexivity.
Defined.

(** * vite.config.js: assets by extension *)

Section AssetFileNames.

Lemma to_upper_dot c : Ascii.eqb (to_upper c) "." = Ascii.eqb c ".".
Proof. destruct c as [[] [] [] [] [] [] [] []]; reflexivity. Qed.

Lemma dot_free_upper s : dot_free (upper s) = dot_free s.
Proof.
  induction s as [|c s IH]; [reflexivity|]. cbn [upper dot_free].
  now rewrite to_upper_dot, IH.
Qed.

Lemma upper_app a b : upper (a +:+ b) = upper a +:+ upper b.
Proof.
  induction a as [|c a IH]; [reflexivity|].
  change (String c a +:+ b) with (String c (a +:+ b)). cbn [upper].
  change (String (to_upper c) (upper a) +:+ upper b)
    with (String (to_upper c) (upper a +:+ upper b)).
  now rewrite IH.
Qed.

Lemma upper_app_inv m : forall a b,
  upper m = a +:+ b -> exists m1 m2, m = m1 +:+ m2 /\ upper m1 = a /\ upper m2 = b.
Proof.
  intros a. revert m. induction a as [|c a IH]; intros m b H.
  - exists ""%string, m. now repeat split.
  - change (String c a +:+ b) with (String c (a +:+ b)) in H.
    destruct m as [|d m]; [discriminate H|]. cbn [upper] in H. injection H as Hc Hm.
    destruct (IH m b Hm) as (m1 & m2 & -> & H1 & H2).
    exists (String d m1), m2. repeat split; [|exact H2]. cbn [upper]. now rewrite Hc, H1.
Qed.

Lemma string_app_empty_r (a : string) : a +:+ "" = a.
Proof.
  induction a as [|c a IH]; [reflexivity|].
  change (String c a +:+ "") with (String c (a +:+ "")). now rewrite IH.
Qed.

(** What a match leaves: the text without a prefix that is a word of the
    expression up to case. *)
Lemma matches_words r : forall s rest,
  In rest (matches r s) <->
  exists w m, In w (words r) /\ s = m +:+ rest /\ upper m = upper w.
Proof.
  induction r as [|c|r1 IH1 r2 IH2|r1 IH1 r2 IH2|r IH]; intros s rest.
  - cbn. split.
    + intros [->|[]]. exists ""%string, ""%string. repeat split. now left.
    + intros (w & m & [<-|[]] & -> & Hm). destruct m; [now left|discriminate Hm].
  - cbn [matches words]. split.
    + destruct s as [|d s]; [intros []|]. destruct (Ascii.eqb _ _) eqn:E; [|intros []].
      intros [->|[]]. apply Ascii.eqb_eq in E.
      exists (String c ""), (String d ""). repeat split; [now left|].
      cbn [upper]. now rewrite E.
    + intros (w & m & [<-|[]] & -> & Hm).
      destruct m as [|d [|? ?]]; try discriminate Hm. cbn [upper] in Hm. injection Hm as Hm.
      change (String d "" +:+ rest) with (String d rest). cbn [matches].
      rewrite Hm, Ascii.eqb_refl. now left.
  - cbn [matches words]. rewrite in_flat_map. split.
    + intros (mid & H1 & H2). apply IH1 in H1 as (w1 & m1 & Hw1 & -> & Hm1).
      apply IH2 in H2 as (w2 & m2 & Hw2 & -> & Hm2).
      exists (w1 +:+ w2), (m1 +:+ m2). repeat split.
      * apply in_flat_map. exists w1. split; [exact Hw1|]. now apply in_map.
      * now rewrite string_app_assoc.
      * now rewrite !upper_app, Hm1, Hm2.
    + intros (w & m & Hw & -> & Hm). apply in_flat_map in Hw as (w1 & Hw1 & Hw).
      apply in_map_iff in Hw as (w2 & <- & Hw2). rewrite upper_app in Hm.
      apply upper_app_inv in Hm as (m1 & m2 & -> & Hm1 & Hm2).
      exists (m2 +:+ rest). split.
      * apply IH1. exists w1, m1. repeat split; auto. now rewrite string_app_assoc.
      * apply IH2. exists w2, m2. now repeat split.
  - cbn [matches words]. rewrite in_app_iff, IH1, IH2. split.
    + intros [(w & m & Hw & H)|(w & m & Hw & H)]; exists w, m;
        (split; [apply in_app_iff; auto|exact H]).
    + intros (w & m & Hw & H). apply in_app_iff in Hw as [Hw|Hw]; [left|right];
        now exists w, m.
  - cbn [matches words]. rewrite in_app_iff, IH. split.
    + intros [(w & m & Hw & H)|[->|[]]].
      * exists w, m. split; [apply in_app_iff; auto|exact H].
      * exists ""%string, ""%string. repeat split. apply in_app_iff. right. now left.
    + intros (w & m & Hw & H). apply in_app_iff in Hw as [Hw|[<-|[]]].
      * left. now exists w, m.
      * right. destruct H as [-> Hm]. destruct m; [now left|discriminate Hm].
Qed.

Lemma test_at_end_words r : forall s,
  test_at_end r s = true <->
  exists base m w, s = base +:+ m /\ In w (words r) /\ upper m = upper w.
Proof.
  assert (forall s, existsb (String.eqb "") (matches r s) = true <->
                    exists w, In w (words r) /\ upper s = upper w) as Here.
  { intros s. rewrite existsb_exists. split.
    - intros (rest & Hin & He). apply String.eqb_eq in He as <-.
      apply matches_words in Hin as (w & m & Hw & -> & Hm).
      exists w. split; [exact Hw|]. now rewrite string_app_empty_r.
    - intros (w & Hw & Hm). exists ""%string. split; [|reflexivity].
      apply matches_words. exists w, s. repeat split; auto.
      now rewrite string_app_empty_r. }
  induction s as [|c s IH].
  - cbn [test_at_end]. rewrite orb_false_r, Here. split.
    + intros (w & Hw & Hm). now exists ""%string, ""%string, w.
    + intros (base & m & w & Hs & Hw & Hm). exists w. split; [exact Hw|].
      destruct base; [|discriminate Hs]. cbn in Hs. now rewrite Hs.
  - cbn [test_at_end]. rewrite orb_true_iff, Here, IH. split.
    + intros [(w & Hw & Hm)|(base & m & w & -> & Hw & Hm)].
      * now exists ""%string, (String c s), w.
      * now exists (String c base), m, w.
    + intros (base & m & w & Hs & Hw & Hm). destruct base as [|d base].
      * left. exists w. split; [exact Hw|]. cbn in Hs. now rewrite Hs.
      * right. change (String d base +:+ m) with (String d (base +:+ m)) in Hs.
        injection Hs as _ ->. now exists base, m, w.
Qed.

Lemma split_dot_dot_free s : dot_free s = true -> split_dot s = [s].
Proof.
  induction s as [|c s IH]; [reflexivity|]. cbn [dot_free split_dot]. intros H.
  apply andb_true_iff in H as [Hc Hs]. apply negb_true_iff in Hc.
  now rewrite Hc, (IH Hs).
Qed.

Lemma split_dot_dotted s :
  dot_free s = false -> exists h t, split_dot s = h :: t /\ t <> [].
Proof.
  induction s as [|c s IH]; [discriminate|]. cbn [dot_free split_dot]. intros H.
  destruct (Ascii.eqb c ".").
  - exists ""%string, (split_dot s). split; [reflexivity|]. now destruct s as [|d s]; cbn;
      [|destruct (Ascii.eqb d "."); [|destruct (split_dot s)]].
  - cbn in H. destruct (IH H) as (h & t & -> & Ht). now exists (String c h), t.
Qed.

Lemma extension_dot_free s : dot_free s = true -> extension s = s.
Proof. intros H. unfold extension. now rewrite (split_dot_dot_free s H). Qed.

Lemma extension_dot s : extension (String "." s) = extension s.
Proof.
  unfold extension. cbn [split_dot]. change (Ascii.eqb "." ".") with true. cbv iota.
  destruct s as [|d s]; [reflexivity|]. cbn [split_dot].
  destruct (Ascii.eqb d "."); [reflexivity|]. now destruct (split_dot s).
Qed.

Lemma extension_other c s :
  Ascii.eqb c "." = false -> dot_free s = false ->
  extension (String c s) = extension s.
Proof.
  intros Hc Hs. unfold extension. cbn [split_dot]. rewrite Hc.
  destruct (split_dot_dotted s Hs) as (h & t & -> & Ht).
  destruct t as [|x t]; [contradiction|reflexivity].
Qed.

Lemma dot_free_app_dot base x : dot_free (base +:+ String "." x) = false.
Proof.
  induction base as [|c base IH]; [reflexivity|].
  change (String c base +:+ String "." x) with (String c (base +:+ String "." x)).
  cbn [dot_free]. rewrite IH. apply andb_false_r.
Qed.

Lemma extension_app base x :
  dot_free x = true -> extension (base +:+ String "." x) = x.
Proof.
  intros Hx. induction base as [|c base IH].
  - change ("" +:+ String "." x) with (String "." x).
    rewrite extension_dot. now apply extension_dot_free.
  - change (String c base +:+ String "." x) with (String c (base +:+ String "." x)).
    destruct (Ascii.eqb c ".") eqn:Hc.
    + apply Ascii.eqb_eq in Hc as ->. now rewrite extension_dot.
    + rewrite extension_other; [exact IH|exact Hc|apply dot_free_app_dot].
Qed.

Lemma extension_split s :
  dot_free s = false -> exists base, s = base +:+ String "." (extension s).
Proof.
  induction s as [|c s IH]; [discriminate|]. cbn [dot_free]. intros H.
  destruct (Ascii.eqb c ".") eqn:Hc.
  - apply Ascii.eqb_eq in Hc as ->. rewrite extension_dot.
    destruct (dot_free s) eqn:Hs.
    + exists ""%string. now rewrite extension_dot_free.
    + destruct (IH eq_refl) as (base & Hb). exists (String "." base).
      change (String "." base +:+ String "." (extension s))
        with (String "." (base +:+ String "." (extension s))). now rewrite <- Hb.
  - cbn in H. rewrite (extension_other c s Hc H).
    destruct (IH H) as (base & Hb). exists (String c base).
    change (String c base +:+ String "." (extension s))
      with (String c (base +:+ String "." (extension s))). now rewrite <- Hb.
Qed.

(** An expression whose words are a dot and an extension tests the text
    after the last dot of the name. *)
Lemma test_at_end_extension r name :
  dotted_words r = true ->
  test_at_end r name = true <->
  dot_free name = false /\ In (upper (extension name)) (extensions r).
Proof.
  intros Hr. unfold dotted_words in Hr. rewrite forallb_forall in Hr.
  rewrite test_at_end_words. split.
  - intros (base & m & w & -> & Hw & Hm). specialize (Hr w Hw).
    destruct w as [|c e]; [discriminate Hr|]. apply andb_true_iff in Hr as [Hc He].
    destruct m as [|d x]; [discriminate Hm|]. cbn [upper] in Hm. injection Hm as Hd Hx.
    assert (d = "."%char) as ->.
    { apply Ascii.eqb_eq. rewrite <- to_upper_dot, Hd, to_upper_dot. exact Hc. }
    assert (dot_free x = true) as Hfree.
    { now rewrite <- dot_free_upper, Hx, dot_free_upper. }
    split; [apply dot_free_app_dot|]. rewrite (extension_app base x Hfree), Hx.
    unfold extensions. apply in_map_iff. now exists (String c e).
  - intros [Hn Hin]. destruct (extension_split name Hn) as (base & Hb).
    unfold extensions in Hin. apply in_map_iff in Hin as (w & He & Hw).
    specialize (Hr w Hw). destruct w as [|c e]; [discriminate Hr|].
    apply andb_true_iff in Hr as [Hc _]. apply Ascii.eqb_eq in Hc as ->.
    exists base, (String "." (extension name)), (String "." e).
    repeat split; [exact Hb|exact Hw|]. cbn [upper]. now rewrite He.
Qed.

Lemma existsb_In (x : string) l : existsb (String.eqb x) l = true <-> In x l.
Proof.
  rewrite existsb_exists. split.
  - intros (y & Hy & He). now apply String.eqb_eq in He as ->.
  - intros H. exists x. split; [exact H|apply String.eqb_refl].
Qed.

Lemma test_at_end_by_list r l name :
  dotted_words r = true ->
  (forall e, In e (extensions r) <-> In e l) ->
  test_at_end r name = negb (dot_free name) && existsb (String.eqb (upper (extension name))) l.
Proof.
  intros Hr Hl. apply eq_true_iff_eq.
  rewrite (test_at_end_extension r name Hr), andb_true_iff, negb_true_iff, existsb_In, Hl.
  reflexivity.
Qed.

End AssetFileNames.

(** X14: [assetFileNames] of vite.config.js sorts an asset by the text
    after the last dot of its name, compared without regard to case: into
    assets/images/ for png, jpg, jpeg, gif, svg, webp and ico, into
    assets/fonts/ for woff, woff2, eot, ttf and otf, and into assets/
    otherwise, also when the name has no dot.  The two regular
    expressions of lines 33 and 35 decide exactly this, so that the
    order of the two tests has no part in the result; the unused [ext] of
    line 32 is the text they look at. *)
Theorem assetFileNames_by_extension name : assetFileNames name = by_extension name.
Proof.
  unfold assetFileNames, by_extension. cbv zeta.
  rewrite (test_at_end_by_list images_re
             ["PNG"; "JPG"; "JPEG"; "GIF"; "SVG"; "WEBP"; "ICO"]%string name).
  - rewrite (test_at_end_by_list fonts_re ["WOFF"; "WOFF2"; "EOT"; "TTF"; "OTF"]%string name).
    + reflexivity.
    + reflexivity.
    + intros e. cbn. tauto.
  - reflexivity.
  - intros e. cbn. tauto.
Qed.

(** X15: the proxy_pass heuristic of lines 122-124 is a containment
    test without an else branch: it records its Warn, and adds one to
    WARNINGS, exactly when nginx.conf can be read and one of its lines
    contains [proxy_pass], anywhere in the line; otherwise it prints
    nothing and leaves the state as it is, WARNINGS included, and the
    script goes on, also when nginx.conf cannot be read.  It never
    changes PASSED or FAILED. *)
Theorem proxy_pass_heuristic_is_containment env s :
  (added (proxy_pass_heuristic env) s =
     [Result Warn "nginx.conf contains proxy_pass (should serve static files)"] <->
   exists ls, contents env !! "nginx.conf" = Some ls /\ occurs_in "proxy_pass" ls) /\
  (added (proxy_pass_heuristic env) s = [] <->
   ~ exists ls, contents env !! "nginx.conf" = Some ls /\ occurs_in "proxy_pass" ls) /\
  ((exists ls, contents env !! "nginx.conf" = Some ls /\ occurs_in "proxy_pass" ls) ->
   final (proxy_pass_heuristic env s) =
     after_warn "nginx.conf contains proxy_pass (should serve static files)" s /\
   WARNINGS (final (proxy_pass_heuristic env s)) = wrap64 (WARNINGS s + 1)) /\
  (~ (exists ls, contents env !! "nginx.conf" = Some ls /\ occurs_in "proxy_pass" ls) ->
   proxy_pass_heuristic env s = Running s) /\
  PASSED (final (proxy_pass_heuristic env s)) = PASSED s /\
  FAILED (final (proxy_pass_heuristic env s)) = FAILED s.
Proof.
  assert (grep_q env "proxy_pass" "nginx.conf" = 0 <->
          exists ls, contents env !! "nginx.conf" = Some ls /\ occurs_in "proxy_pass" ls) as G.
  { now apply grep_q_plain. }
  rewrite <- G. unfold proxy_pass_heuristic, if_grep.
  destruct (grep_q env "proxy_pass" "nginx.conf" =? 0) eqn:E.
  - apply Z.eqb_eq in E. rewrite added_check_warn, final_check_warn.
    split; [tauto|]. split; [split; [discriminate|tauto]|].
    split; [intros _; split; reflexivity|]. split; [tauto|]. split; reflexivity.
  - apply Z.eqb_neq in E. rewrite added_skip.
    split; [split; [discriminate|tauto]|]. split; [tauto|].
    split; [tauto|]. split; [reflexivity|]. split; reflexivity.
Qed.
